(** * The Superset agent loop (agent.py): a shallow embedding

    The development follows [SupersetAgent] of agent.py: the conversation
    history, the tool schema list handed to the language model, the bounded
    chat loop and the dispatch of tool invocation requests to the six
    collaborator calls imported from main.py.

    The language model and the six collaborator calls are external: they are
    parameters of the development (an interface, [Collaborators]), each a
    function of an explicit world state that it may change, and each either
    returns a value or raises.  Every call made to them is recorded in a trace
    of events, so that statements about what was called, with what, and in
    which order can be made about the code itself.

    The calls to the logger are left out: they change neither the history nor
    what is returned. *)

From Stdlib Require Import String Ascii List ZArith Lia Bool Arith.
From Stdlib Require Import DecimalString Zify.
Import ListNotations.
Local Open Scope list_scope.
Local Open Scope string_scope.
Set Warnings "-register-all".

(** ** Python values

    The values that travel through the loop: argument mappings of tool
    invocation requests, results of collaborator calls, the tool schema
    literals.  A Python [str] is a [string] whose characters are read as the
    code points 0..255.  [PObj s] is a value of any type the JSON encoder does
    not know (a datetime, a Decimal, a custom object), known here by the text
    [s] that [str()] gives for it.  Values are finite trees, and dictionaries
    have [str] keys, as every dictionary literal of agent.py and every parsed
    JSON document has; floating point numbers are left out. *)

Inductive pyval : Type :=
| PNone
| PBool (b : bool)
| PInt (z : Z)
| PStr (s : string)
| PList (l : list pyval)
| PDict (d : list (string * pyval))
| PObj (str_form : string).

(** An argument mapping, [Dict[str, Any]]. *)
Definition kwargs : Type := list (string * pyval).

(** ** json.dumps(value, default=str) *)

Module Json.

Definition dquote : string := String (ascii_of_nat 34) EmptyString.
Definition backslash : string := String (ascii_of_nat 92) EmptyString.

Definition hex_digit (n : nat) : ascii :=
  if (n <? 10)%nat then ascii_of_nat (48 + n) else ascii_of_nat (87 + n).

(** ['\\u{0:04x}'.format(n)] for a code point below 256. *)
Definition u_escape (n : nat) : string :=
  backslash ++ "u00"
    ++ String (hex_digit (n / 16)) (String (hex_digit (n mod 16)) EmptyString).

(** One character under [ensure_ascii]: the short escapes of the encoder's
    table, the character itself when it is printable ASCII, a [\u] escape
    otherwise. *)
Definition escape_char (c : ascii) : string :=
  let n := nat_of_ascii c in
  if (n =? 34)%nat then backslash ++ dquote
  else if (n =? 92)%nat then backslash ++ backslash
  else if (n =? 10)%nat then backslash ++ "n"
  else if (n =? 13)%nat then backslash ++ "r"
  else if (n =? 9)%nat then backslash ++ "t"
  else if (n =? 8)%nat then backslash ++ "b"
  else if (n =? 12)%nat then backslash ++ "f"
  else if ((32 <=? n) && (n <=? 126))%nat then String c EmptyString
  else u_escape n.

Fixpoint escape_chars (s : string) : string :=
  match s with
  | EmptyString => EmptyString
  | String c s' => escape_char c ++ escape_chars s'
  end.

(** [py_encode_basestring_ascii]: a JSON string literal. *)
Definition encode_str (s : string) : string :=
  dquote ++ escape_chars s ++ dquote.

(** [int.__repr__]. *)
Definition encode_int (z : Z) : string :=
  NilZero.string_of_int (Z.to_int z).

(** [', '.join(items)]. *)
Fixpoint join_comma (items : list string) : string :=
  match items with
  | [] => EmptyString
  | [x] => x
  | x :: rest => x ++ ", " ++ join_comma rest
  end.

(** The encoder with the default separators, [ensure_ascii=True] and
    [default=str]: a value of an unknown type is replaced by [str(value)],
    which is then encoded as the string it is. *)
Fixpoint dumps (v : pyval) : string :=
  match v with
  | PNone => "null"
  | PBool true => "true"
  | PBool false => "false"
  | PInt z => encode_int z
  | PStr s => encode_str s
  | PList l => "[" ++ join_comma (map dumps l) ++ "]"
  | PDict d =>
      "{" ++ join_comma
               (map (fun kv => encode_str (fst kv) ++ ": " ++ dumps (snd kv)) d)
          ++ "}"
  | PObj s => encode_str s
  end.

End Json.

Local Open Scope list_scope.

(** ** Messages of the conversation *)

(** A tool invocation request of the model: [tool_call['function']['name']]
    and [tool_call['function']['arguments']]. *)
Record tool_call : Type := {
  function_name : string;
  function_arguments : kwargs
}.

(** One message of the conversation, with the keys the code reads and writes:
    [role], [content], [tool_calls] (only on a message of the model, and
    there possibly absent) and [name] (only on a tool message). *)
Record message : Type := {
  msg_role : string;
  msg_content : string;
  msg_tool_calls : option (list tool_call);
  msg_name : option string
}.

(** [{"role": r, "content": c}] *)
Definition plain_message (r c : string) : message :=
  {| msg_role := r; msg_content := c; msg_tool_calls := None; msg_name := None |}.

(** [{"role": "tool", "content": c, "name": n}] *)
Definition tool_message (c n : string) : message :=
  {| msg_role := "tool"; msg_content := c; msg_tool_calls := None;
     msg_name := Some n |}.

(** ** Exceptions and outcomes of calls

    An [Exception] is an instance of Python's class [Exception], the class
    both [except Exception] clauses of agent.py catch; it is known by the text
    [str(e)].  Interrupts and task cancellation, which are not instances of
    that class, are outside the model. *)
Record Exception : Type := { exc_str : string }.

Inductive outcome (A : Type) : Type :=
| Returns (a : A)
| Raises (e : Exception).
Arguments Returns {A} a.
Arguments Raises {A} e.

(** ** The external collaborators

    [client_chat model messages tools] is [ollama.Client.chat] followed by
    [response['message']]; the six others are the functions agent.py imports
    from main.py, called with the MCP context and keyword arguments.  Each
    reads and may change the world outside the agent. *)
Class Collaborators : Type := {
  World : Type;
  McpContext : Type;
  client_chat :
    string -> list message -> pyval -> World -> outcome message * World;
  superset_database_list :
    McpContext -> kwargs -> World -> outcome pyval * World;
  superset_database_get_tables :
    McpContext -> kwargs -> World -> outcome pyval * World;
  superset_database_schemas :
    McpContext -> kwargs -> World -> outcome pyval * World;
  superset_sqllab_execute_query :
    McpContext -> kwargs -> World -> outcome pyval * World;
  superset_chart_create :
    McpContext -> kwargs -> World -> outcome pyval * World;
  superset_dataset_list :
    McpContext -> kwargs -> World -> outcome pyval * World
}.

(** What the agent did to the outside, in order: a request to the language
    model with the messages and tool schemas it was given, or a call of the
    collaborator imported under [name] with the keyword arguments passed. *)
Inductive event : Type :=
| EvChat (model : string) (messages : list message) (tools : pyval)
| EvCall (name : string) (kw : kwargs).

Definition is_chat (ev : event) : bool :=
  match ev with EvChat _ _ _ => true | EvCall _ _ => false end.

Definition is_call (ev : event) : bool :=
  match ev with EvChat _ _ _ => false | EvCall _ _ => true end.

(** The number of requests made to the language model in a trace. *)
Definition model_calls (tr : list event) : nat := length (filter is_chat tr).

(** The collaborator calls of a trace. *)
Definition tool_dispatches (tr : list event) : list event := filter is_call tr.

(** ** The agent *)

(** The system prompt for the Superset agent. *)
Definition SYSTEM_PROMPT : string :=
"You are a Superset Data Analyst Agent. Your goal is to help users visualize data.
You have access to a Superset instance with Trino/Database connections.

Follow this process:
1. Understand the User's Request.
2. INTERSPECT Data: Use `superset_database_list` to find databases.
   - For Trino/Presto, ALWAYS check schemas using `superset_database_schemas(database_id)` first.
   - Then use `superset_database_get_tables(database_id, schema_name=...)` with the relevant schema.
3. QUERY Data (Optional but recommended): Use `superset_sqllab_execute_query` to preview data or verify assumptions.
4. VISUALIZE: Use `superset_chart_create` to create a chart.
   - Choose an appropriate `viz_type` (e.g., 'table', 'big_number', 'echarts_timeseries_line', 'echarts_timeseries_bar', 'pie').
   - `datasource_type` should be 'table' (if using a dataset) or 'query' (if creating from SQL).
   - Construct the `params` JSON carefully based on the chart type.
5. FINAL ANSWER: Return the URL of the created chart or dashboard.

Tools available:
- `superset_database_list`: List available databases.
- `superset_database_get_tables(database_id)`: List tables in a database.
- `superset_sqllab_execute_query(database_id, sql)`: Execute SQL.
- `superset_chart_create(slice_name, datasource_id, datasource_type, viz_type, params)`: Create a chart.
- `superset_dataset_list()`: List available datasets.

Response Format:
You must STRICTLY use the provided tools.
If you need more information, ask the user.
".

(** An agent instance: the MCP context, the model identifier and the
    conversation history.  (The Ollama client of the instance is the
    [client_chat] collaborator.) *)
Record SupersetAgent `{Collaborators} : Type := {
  ctx : McpContext;
  model : string;
  history : list message
}.

(** The default of the [model] parameter of the constructor. *)
Definition default_model : string := "llama3".

(** [SupersetAgent.__init__] *)
Definition __init__ `{Collaborators} (c : McpContext) (m : string)
  : SupersetAgent :=
  {| ctx := c; model := m;
     history := [plain_message "system" SYSTEM_PROMPT] |}.

(** The agent together with the world around it and the trace of what it has
    done to that world so far. *)
Record state `{Collaborators} : Type := {
  self : SupersetAgent;
  world : World;
  trace : list event
}.

(** *** Computations: state, and a result that is returned or raised *)

Section Agent.
Context `{Collaborators}.

Definition M (A : Type) : Type := state -> outcome A * state.

Definition ret {A} (a : A) : M A := fun st => (Returns a, st).

Definition bind {A B} (m : M A) (k : A -> M B) : M B :=
  fun st =>
    match m st with
    | (Returns a, st') => k a st'
    | (Raises e, st') => (Raises e, st')
    end.

(** [try: m] with the outcome handed to the code after it. *)
Definition attempt {A} (m : M A) : M (outcome A) :=
  fun st => let (r, st') := m st in (Returns r, st').

(** [try: m  except Exception as e: handler e] *)
Definition try_except {A} (m : M A) (handler : Exception -> M A) : M A :=
  bind (attempt m)
       (fun r => match r with Returns a => ret a | Raises e => handler e end).

(** [self.history.append(m)] *)
Definition history_append (m : message) : M unit :=
  fun st =>
    (Returns tt,
     {| self := {| ctx := ctx (self st); model := model (self st);
                   history := history (self st) ++ [m] |};
        world := world st; trace := trace st |}).

(** [self.client.chat(model=self.model, messages=self.history, tools=tools)]
    and [response['message']]. *)
Definition request_completion (tools : pyval) : M message :=
  fun st =>
    let (r, w) :=
      client_chat (model (self st)) (history (self st)) tools (world st) in
    (r, {| self := self st; world := w;
           trace := trace st
                    ++ [EvChat (model (self st)) (history (self st)) tools] |}).

(** [await f(self.ctx, **kw)], for the collaborator [f] imported as [name]. *)
Definition await (name : string)
    (f : McpContext -> kwargs -> World -> outcome pyval * World)
    (kw : kwargs) : M pyval :=
  fun st =>
    let (r, w) := f (ctx (self st)) kw (world st) in
    (r, {| self := self st; world := w;
           trace := trace st ++ [EvCall name kw] |}).

End Agent.

Declare Scope agent_scope.
Notation "x <- m ;; k" := (bind m (fun x => k))
  (at level 61, m at next level, right associativity) : agent_scope.
Notation "m ;; k" := (bind m (fun _ => k))
  (at level 61, right associativity) : agent_scope.
Local Open Scope agent_scope.

(** *** The tool schema list

    The [tools] literal of [chat]: one schema per operation, with its name,
    description and parameter shapes. *)
Definition tools : pyval :=
  PList [
    PDict [
      ("type", PStr "function");
      ("function", PDict [
         ("name", PStr "superset_database_list");
         ("description", PStr "List all databases available in Superset");
         ("parameters", PDict [
            ("type", PStr "object");
            ("properties", PDict [])])])];
    PDict [
      ("type", PStr "function");
      ("function", PDict [
         ("name", PStr "superset_database_get_tables");
         ("description", PStr "List tables in a specific database");
         ("parameters", PDict [
            ("type", PStr "object");
            ("properties", PDict [
               ("database_id", PDict [("type", PStr "integer"); ("description", PStr "The ID of the database")]);
               ("schema_name", PDict [("type", PStr "string"); ("description", PStr "The schema name (optional but recommended for Trino)")])]);
            ("required", PList [PStr "database_id"])])])];
    PDict [
      ("type", PStr "function");
      ("function", PDict [
         ("name", PStr "superset_database_schemas");
         ("description", PStr "List schemas in a specific database");
         ("parameters", PDict [
            ("type", PStr "object");
            ("properties", PDict [
               ("database_id", PDict [("type", PStr "integer"); ("description", PStr "The ID of the database")])]);
            ("required", PList [PStr "database_id"])])])];
    PDict [
      ("type", PStr "function");
      ("function", PDict [
         ("name", PStr "superset_sqllab_execute_query");
         ("description", PStr "Execute a SQL query against a database");
         ("parameters", PDict [
            ("type", PStr "object");
            ("properties", PDict [
               ("database_id", PDict [("type", PStr "integer"); ("description", PStr "The ID of the database")]);
               ("sql", PDict [("type", PStr "string"); ("description", PStr "The SQL query to execute")])]);
            ("required", PList [PStr "database_id"; PStr "sql"])])])];
    PDict [
      ("type", PStr "function");
      ("function", PDict [
         ("name", PStr "superset_chart_create");
         ("description", PStr "Create a new chart in Superset");
         ("parameters", PDict [
            ("type", PStr "object");
            ("properties", PDict [
               ("slice_name", PDict [("type", PStr "string"); ("description", PStr "Name of the chart")]);
               ("datasource_id", PDict [("type", PStr "integer"); ("description", PStr "ID of the datasource (table or saved query)")]);
               ("datasource_type", PDict [
                  ("type", PStr "string");
                  ("enum", PList [PStr "table"; PStr "query"]);
                  ("description", PStr "Type of datasource")]);
               ("viz_type", PDict [("type", PStr "string"); ("description", PStr "Type of visualization (e.g., echarts_timeseries_bar)")]);
               ("params", PDict [("type", PStr "object"); ("description", PStr "Chart configuration parameters")])]);
            ("required", PList [PStr "slice_name"; PStr "datasource_id"; PStr "datasource_type"; PStr "viz_type"; PStr "params"])])])];
    PDict [
      ("type", PStr "function");
      ("function", PDict [
         ("name", PStr "superset_dataset_list");
         ("description", PStr "List available datasets");
         ("parameters", PDict [
            ("type", PStr "object");
            ("properties", PDict [])])])]].

(** [d[k]] for a dictionary [d]. *)
Fixpoint assoc_get (k : string) (d : list (string * pyval)) : option pyval :=
  match d with
  | [] => None
  | (k', v) :: rest => if k =? k' then Some v else assoc_get k rest
  end.

(** [schema['function']['name']] *)
Definition schema_name (schema : pyval) : option string :=
  match schema with
  | PDict d =>
      match assoc_get "function" d with
      | Some (PDict f) =>
          match assoc_get "name" f with
          | Some (PStr n) => Some n
          | _ => None
          end
      | _ => None
      end
  | _ => None
  end.

(** The operation names of a schema list, in the order of the list. *)
Definition schema_names (ts : pyval) : list string :=
  match ts with
  | PList l =>
      flat_map (fun t => match schema_name t with Some n => [n] | None => [] end) l
  | _ => []
  end.

Section AgentLoop.
Context `{Collaborators}.

(** *** Tool dispatch *)

Definition collaborator : Type :=
  McpContext -> kwargs -> World -> outcome pyval * World.

(** The names [_execute_tool] imports from main.py, in the order of the
    import statement, each with the function it is bound to.  (The import
    statement itself, which stands before the [try], is taken to succeed.) *)
Definition imports : list (string * collaborator) :=
  [ ("superset_database_list", superset_database_list);
    ("superset_database_get_tables", superset_database_get_tables);
    ("superset_database_schemas", superset_database_schemas);
    ("superset_sqllab_execute_query", superset_sqllab_execute_query);
    ("superset_chart_create", superset_chart_create);
    ("superset_dataset_list", superset_dataset_list) ].

Fixpoint imported_in (l : list (string * collaborator)) (name : string)
  : option collaborator :=
  match l with
  | [] => None
  | (n, f) :: rest => if name =? n then Some f else imported_in rest name
  end.

(** The function imported under [name], if there is one. *)
Definition imported (name : string) : option collaborator :=
  imported_in imports name.

(** [{"error": text}] *)
Definition error_payload (text : string) : pyval :=
  PDict [("error", PStr text)].

(** The body of the [try] of [_execute_tool]: the chain of comparisons of
    [name], each branch awaiting one collaborator call.  The two list
    operations are called with the context alone. *)
Definition _execute_tool_try (name : string) (args : kwargs) : M pyval :=
  if name =? "superset_database_list" then
    await "superset_database_list" superset_database_list []
  else if name =? "superset_database_schemas" then
    await "superset_database_schemas" superset_database_schemas args
  else if name =? "superset_database_get_tables" then
    await "superset_database_get_tables" superset_database_get_tables args
  else if name =? "superset_sqllab_execute_query" then
    await "superset_sqllab_execute_query" superset_sqllab_execute_query args
  else if name =? "superset_chart_create" then
    await "superset_chart_create" superset_chart_create args
  else if name =? "superset_dataset_list" then
    await "superset_dataset_list" superset_dataset_list []
  else
    ret (error_payload ("Unknown tool: " ++ name)%string).

(** [SupersetAgent._execute_tool] *)
Definition _execute_tool (name : string) (args : kwargs) : M pyval :=
  try_except (_execute_tool_try name args)
             (fun e => ret (error_payload (exc_str e))).

(** *** The chat loop *)

(** The [for tool_call in tool_calls] loop of one round: dispatch, then append
    the serialized result as a tool message, one request after the other. *)
Fixpoint process_tool_calls (tool_calls : list tool_call) : M unit :=
  match tool_calls with
  | [] => ret tt
  | tool_call :: rest =>
      let function_name := function_name tool_call in
      let arguments := function_arguments tool_call in
      tool_result <- _execute_tool function_name arguments ;;
      history_append (tool_message (Json.dumps tool_result) function_name) ;;
      process_tool_calls rest
  end.

(** [not tool_calls], for [tool_calls = message.get('tool_calls')]: the key is
    absent (or None), or the list is empty. *)
Definition no_tool_calls (m : message) : bool :=
  match msg_tool_calls m with
  | None => true
  | Some [] => true
  | Some (_ :: _) => false
  end.

Definition requested (m : message) : list tool_call :=
  match msg_tool_calls m with
  | None => []
  | Some tcs => tcs
  end.

Definition limit_reached : string :=
  "Agent loop limit reached without final answer.".

(** The body of the main agent loop, one round: [Some answer] when the body
    executes a [return], [None] when it runs to its end and the loop goes on. *)
Definition chat_round : M (option string) :=
  response <- attempt (request_completion tools) ;;
  match response with
  | Raises e =>
      ret (Some ("Error communicating with Ollama: " ++ exc_str e)%string)
  | Returns message =>
      history_append message ;;
      if no_tool_calls message then ret (Some (msg_content message))
      else process_tool_calls (requested message) ;; ret None
  end.

(** [for _ in range(n)] over that body, and the [return] after the loop. *)
Fixpoint chat_loop (n : nat) : M string :=
  match n with
  | O => ret limit_reached
  | S n' =>
      r <- chat_round ;;
      match r with
      | Some answer => ret answer
      | None => chat_loop n'
      end
  end.

(** [SupersetAgent.chat] *)
Definition chat (query : string) : M string :=
  history_append (plain_message "user" query) ;;
  chat_loop 5.

End AgentLoop.

(** The six operation names (those of the import statement). *)
Definition operation_names : list string :=
  [ "superset_database_list"; "superset_database_get_tables";
    "superset_database_schemas"; "superset_sqllab_execute_query";
    "superset_chart_create"; "superset_dataset_list" ].

(** The two operations whose collaborator is called with the context alone. *)
Definition called_without_arguments (name : string) : bool :=
  (name =? "superset_database_list") || (name =? "superset_dataset_list").

(** The keyword arguments the call for [name] is made with. *)
Definition passed_arguments (name : string) (args : kwargs) : kwargs :=
  if called_without_arguments name then [] else args.

(** ** States, runs and rounds

    The vocabulary of the properties: the states the primitive steps lead
    to, the tool loop and the rounds as relations on states, and the shape of
    what a round appends and does. *)

Section Runs.
Context `{Collaborators}.

(** The state after a collaborator call that left the world as [w]. *)
Definition called (st : state) (name : string) (kw : kwargs) (w : World)
  : state :=
  {| self := self st; world := w; trace := trace st ++ [EvCall name kw] |}.

(** The state after a request to the model that left the world as [w]. *)
Definition asked (st : state) (w : World) : state :=
  {| self := self st; world := w;
     trace := trace st
              ++ [EvChat (model (self st)) (history (self st)) tools] |}.

(** The state after [self.history.append(m)]. *)
Definition appended (st : state) (m : message) : state :=
  {| self := {| ctx := ctx (self st); model := model (self st);
                history := history (self st) ++ [m] |};
     world := world st; trace := trace st |}.

(** *** The tool loop of one round, as a relation

    [dispatched tcs st vs st'] : running the requests [tcs] in order from
    [st] dispatches them with the results [vs] and ends in [st']. *)
Inductive dispatched : list tool_call -> state -> list pyval -> state -> Prop :=
| dispatched_nil (st : state) : dispatched [] st [] st
| dispatched_cons (tc : tool_call) (rest : list tool_call) (st st1 st2 : state)
    (v : pyval) (vs : list pyval) :
    _execute_tool (function_name tc) (function_arguments tc) st
      = (Returns v, st1) ->
    dispatched rest
      (appended st1 (tool_message (Json.dumps v) (function_name tc))) vs st2 ->
    dispatched (tc :: rest) st (v :: vs) st2.

(** The tool messages of a round: one per request, in the order of the
    requests, each with the serialized result and the name of its request. *)
Definition tool_messages (tcs : list tool_call) (vs : list pyval)
  : list message :=
  map (fun p => tool_message (Json.dumps (snd p)) (function_name (fst p)))
      (combine tcs vs).

(** The collaborator call a request leads to: none for an unknown name. *)
Definition call_events (tc : tool_call) : list event :=
  if existsb (String.eqb (function_name tc)) operation_names
  then [EvCall (function_name tc)
               (passed_arguments (function_name tc) (function_arguments tc))]
  else [].

(** [continued n st st'] : from [st], [n] rounds in a row ran to the end of
    the loop body (none of them returned), and left the state [st']. *)
Inductive continued : nat -> state -> state -> Prop :=
| continued_O (st : state) : continued 0 st st
| continued_S (n : nat) (st st1 st2 : state) :
    chat_round st = (Returns None, st1) ->
    continued n st1 st2 ->
    continued (S n) st st2.

(** An event that, when it is a request to the model, carries the schema
    list [tools]. *)
Definition carries_tools (ev : event) : Prop :=
  match ev with
  | EvChat _ _ ts => ts = tools
  | EvCall _ _ => True
  end.

(** A request to the model made with the schema list [tools] and with
    messages that extend the history [h]. *)
Definition extends_history (h : list message) (ev : event) : Prop :=
  match ev with
  | EvChat _ msgs ts => ts = tools /\ exists more, msgs = h ++ more
  | EvCall _ _ => True
  end.

(** The call of the collaborator [f], imported as [name], with the keyword
    arguments [kw], under the [try] of [_execute_tool]. *)
Definition guarded_call (name : string) (f : collaborator) (kw : kwargs)
  : M pyval :=
  try_except (await name f kw) (fun e => ret (error_payload (exc_str e))).

(** Dispatch as the specification words it: whatever the recognized name,
    the collaborator is called with the argument mapping of the request
    unpacked as keyword parameters. *)
Definition spec_execute_tool (name : string) (args : kwargs) : M pyval :=
  match imported name with
  | Some f => guarded_call name f args
  | None => ret (error_payload ("Unknown tool: " ++ name)%string)
  end.

(** A round that ran to its end: the messages sent to the model, its
    response, and the results of the dispatches of its requests. *)
Record round : Type := {
  sent : list message;
  response : message;
  results : list pyval
}.

(** The messages a round appends: the response of the model, then the tool
    messages of its requests, in the order of the requests. *)
Definition round_messages (r : round) : list message :=
  response r :: tool_messages (requested (response r)) (results r).

(** What a round does to the outside: the request to the model, then the
    collaborator calls of its requests, in the order of the requests. *)
Definition round_events (mdl : string) (r : round) : list event :=
  EvChat mdl (sent r) tools :: flat_map call_events (requested (response r)).

(** The model answered with requests, and every request has its tool
    message, tagged with its operation name. *)
Definition well_formed_round (r : round) : Prop :=
  no_tool_calls (response r) = false /\
  length (results r) = length (requested (response r)) /\
  Forall (fun msg => msg_role msg = "tool")
    (tool_messages (requested (response r)) (results r)) /\
  map msg_name (tool_messages (requested (response r)) (results r))
    = map (fun tc => Some (function_name tc)) (requested (response r)).

End Runs.

(** ** Shapes of events and of answers to unknown names *)

(** An event a call of [chat] on an agent with model identifier [mdl] may
    produce: a request to the model under that identifier with [tools], or a
    call of one of the six collaborators, the two list operations without
    keyword arguments. *)
Definition known_event (mdl : string) (ev : event) : Prop :=
  match ev with
  | EvChat m _ ts => m = mdl /\ ts = tools
  | EvCall name kw =>
      In name operation_names /\
      (called_without_arguments name = true -> kw = [])
  end.

(** The tool message that answers a request for an unknown operation. *)
Definition unknown_tool_message (tc : tool_call) : message :=
  tool_message
    (Json.dumps
       (PDict [("error", PStr ("Unknown tool: " ++ function_name tc)%string)]))
    (function_name tc).

(** A character the encoder leaves as it is: printable ASCII other than the
    double quote and the backslash. *)
Definition plain_char (c : ascii) : bool :=
  let n := nat_of_ascii c in
  ((32 <=? n) && (n <=? 126) && negb (n =? 34) && negb (n =? 92))%nat.

Fixpoint plain (s : string) : bool :=
  match s with
  | EmptyString => true
  | String c s' => plain_char c && plain s'
  end.

(** ** Serialized text *)

(** Text made of printable ASCII characters only. *)
Fixpoint printable (s : string) : bool :=
  match s with
  | EmptyString => true
  | String c s' =>
      (32 <=? nat_of_ascii c)%nat && (nat_of_ascii c <=? 126)%nat
      && printable s'
  end.

(** The value with every value of an unknown type replaced by its string
    form, at any depth. *)
Fixpoint stringified (v : pyval) : pyval :=
  match v with
  | PList l => PList (map stringified l)
  | PDict d => PDict (map (fun kv => (fst kv, stringified (snd kv))) d)
  | PObj s => PStr s
  | _ => v
  end.

Section PyvalInduction.
Variable P : pyval -> Prop.
Hypothesis HNone : P PNone.
Hypothesis HBool : forall b, P (PBool b).
Hypothesis HInt : forall z, P (PInt z).
Hypothesis HStr : forall s, P (PStr s).
Hypothesis HList : forall l, Forall P l -> P (PList l).
Hypothesis HDict : forall d, Forall (fun kv => P (snd kv)) d -> P (PDict d).
Hypothesis HObj : forall s, P (PObj s).

(** Induction on values, with the hypothesis for every item of a list and
    every value of a dictionary. *)
Fixpoint pyval_induction (v : pyval) : P v :=
  match v with
  | PNone => HNone
  | PBool b => HBool b
  | PInt z => HInt z
  | PStr s => HStr s
  | PList l =>
      HList l
        ((fix items (l : list pyval) : Forall P l :=
            match l with
            | [] => Forall_nil _
            | x :: rest => Forall_cons _ (pyval_induction x) (items rest)
            end) l)
  | PDict d =>
      HDict d
        ((fix items (d : list (string * pyval))
            : Forall (fun kv => P (snd kv)) d :=
            match d with
            | [] => Forall_nil _
            | kv :: rest =>
                Forall_cons _ (pyval_induction (snd kv)) (items rest)
            end) d)
  | PObj s => HObj s
  end.
End PyvalInduction.

(** ** Concrete collaborators

    Small worlds on which the definitions can be run: the world is the
    number of requests the language model has answered, the model answers
    from a script indexed by that number, and the collaborators answer from a
    table. *)
Module Demo.

Definition scripted (script : nat -> outcome message)
    (answer : string -> kwargs -> outcome pyval) : Collaborators :=
  {| World := nat;
     McpContext := unit;
     client_chat := fun _ _ _ n => (script n, S n);
     superset_database_list :=
       fun _ kw n => (answer "superset_database_list" kw, n);
     superset_database_get_tables :=
       fun _ kw n => (answer "superset_database_get_tables" kw, n);
     superset_database_schemas :=
       fun _ kw n => (answer "superset_database_schemas" kw, n);
     superset_sqllab_execute_query :=
       fun _ kw n => (answer "superset_sqllab_execute_query" kw, n);
     superset_chart_create :=
       fun _ kw n => (answer "superset_chart_create" kw, n);
     superset_dataset_list :=
       fun _ kw n => (answer "superset_dataset_list" kw, n) |}.

(** A fresh agent in a fresh world. *)
Definition fresh (C : Collaborators) (c : @McpContext C) (w : @World C)
  : @state C :=
  {| self := __init__ c default_model; world := w; trace := [] |}.

Definition assistant_text (c : string) : message :=
  plain_message "assistant" c.

Definition assistant_calls (tcs : list tool_call) : message :=
  {| msg_role := "assistant"; msg_content := EmptyString;
     msg_tool_calls := Some tcs; msg_name := None |}.

Definition call (n : string) (a : kwargs) : tool_call :=
  {| function_name := n; function_arguments := a |}.

(** The collaborators of the scenarios: one database, and a Python function
    without parameters rejects keyword arguments. *)
Definition examples_db (name : string) (kw : kwargs) : outcome pyval :=
  if name =? "superset_database_list" then
    match kw with
    | [] => Returns (PList [PDict [("id", PInt 1); ("name", PStr "examples")]])
    | (k, _) :: _ =>
        Raises {| exc_str :=
          "superset_database_list() got an unexpected keyword argument '"
          ++ k ++ "'" |}
    end
  else if name =? "superset_database_schemas" then
    Raises {| exc_str := "Connection refused" |}
  else Returns (PDict kw).

(** Scenario: the model asks for the database list, then answers in text. *)
Definition list_then_answer (n : nat) : outcome message :=
  match n with
  | 0 => Returns (assistant_calls [call "superset_database_list" []])
  | _ => Returns (assistant_text "Found 1 database: examples")
  end.

(** Scenario: a faulty model misspells the operation name. *)
Definition typo_then_answer (n : nat) : outcome message :=
  match n with
  | 0 => Returns (assistant_calls [call "superset_database_lsit" []])
  | _ => Returns (assistant_text "Sorry.")
  end.



(** A model that answers in text at once. *)
Definition asks_back (n : nat) : outcome message :=
  Returns (assistant_text "Which database do you mean?").

(** Three requests in one round; the second one fails at the collaborator. *)
Definition three_requests : list tool_call :=
  [ call "superset_database_list" [];
    call "superset_database_schemas" [("database_id", PInt 1)];
    call "superset_dataset_list" [] ].

(** A model that explores in its first round and is gone in the second. *)
Definition explore_then_fail (n : nat) : outcome message :=
  match n with
  | 0 => Returns (assistant_calls three_requests)
  | _ => Raises {| exc_str := "Failed to connect to Ollama" |}
  end.

Definition scenario_env : Collaborators := scripted list_then_answer examples_db.
Definition typo_env : Collaborators := scripted typo_then_answer examples_db.
Definition plain_env : Collaborators := scripted asks_back examples_db.
Definition explore_env : Collaborators := scripted explore_then_fail examples_db.

End Demo.

(** * The smoke-test client (verify_client.py) *)

Module VerifyClient.

(** One item of the content of a tool result: a text item, with its [text],
    or an item of another type (an image, an embedded resource), known by
    the name of its type; such an item has no attribute [text]. *)
Inductive content_item : Type :=
| TextContent (text : string)
| OtherContent (type_name : string).

(** The session with the server: [initialize] and [call_tool], each on the
    state of the server, which it may change, and each either returning or
    raising.  The result of [call_tool] is known by its [content]. *)
Class McpSession : Type := {
  Server : Type;
  initialize : Server -> outcome unit * Server;
  call_tool : string -> kwargs -> Server -> outcome (list content_item) * Server
}.

(** What the client did to the session, in order. *)
Inductive client_event : Type :=
| Initialized
| ToolCalled (name : string) (arguments : kwargs).

(** The server, the lines printed so far and what was done to the session. *)
Record client_state `{McpSession} : Type := {
  server : Server;
  stdout : list string;
  done : list client_event
}.

Section Client.
Context `{McpSession}.

Definition Run (A : Type) : Type := client_state -> outcome A * client_state.

Definition ret {A} (a : A) : Run A := fun st => (Returns a, st).

Definition bind {A B} (m : Run A) (k : A -> Run B) : Run B :=
  fun st =>
    match m st with
    | (Returns a, st') => k a st'
    | (Raises e, st') => (Raises e, st')
    end.

(** [try: m  except Exception as e: handler e] *)
Definition try_except {A} (m : Run A) (handler : Exception -> Run A) : Run A :=
  fun st =>
    match m st with
    | (Returns a, st') => (Returns a, st')
    | (Raises e, st') => handler e st'
    end.

(** [print(line)] *)
Definition print (line : string) : Run unit :=
  fun st =>
    (Returns tt,
     {| server := server st; stdout := stdout st ++ [line]; done := done st |}).

(** [await session.initialize()] *)
Definition session_initialize : Run unit :=
  fun st =>
    let (r, w) := initialize (server st) in
    (r, {| server := w; stdout := stdout st;
           done := done st ++ [Initialized] |}).

(** [await session.call_tool(name, arguments=arguments)] *)
Definition session_call_tool (name : string) (arguments : kwargs)
  : Run (list content_item) :=
  fun st =>
    let (r, w) := call_tool name arguments (server st) in
    (r, {| server := w; stdout := stdout st;
           done := done st ++ [ToolCalled name arguments] |}).

(** [result.content[0].text]: an IndexError on an empty content, an
    AttributeError on an item that is not a text item. *)
Definition first_text (content : list content_item) : Run string :=
  fun st =>
    match content with
    | [] => (Raises {| exc_str := "list index out of range" |}, st)
    | TextContent text :: _ => (Returns text, st)
    | OtherContent type_name :: _ =>
        (Raises {| exc_str := "'" ++ type_name
                              ++ "' object has no attribute 'text'" |}, st)
    end.

End Client.

Declare Scope client_scope.
Notation "x <- m ;; k" := (bind m (fun x => k))
  (at level 61, m at next level, right associativity) : client_scope.
Notation "m ;; k" := (bind m (fun _ => k))
  (at level 61, right associativity) : client_scope.
Local Open Scope client_scope.

(** The newline of the lines that start with one. *)
Definition nl : string := String (ascii_of_nat 10) EmptyString.

Definition trino_ip : string := "192.168.68.118".

Definition query : string :=
  "get the all the tables from the trino ip address ok list all the file it has iceberg.analytices".

Definition authenticate_arguments : kwargs :=
  [("username", PStr "admin"); ("password", PStr "admin")].

Definition database_create_arguments : kwargs :=
  [ ("database_name", PStr "Trino");
    ("sqlalchemy_uri", PStr ("trino://admin@" ++ trino_ip ++ ":8080/iceberg"));
    ("engine", PStr "trino");
    ("configuration_method", PStr "sqlalchemy_form") ].

Section RunClient.
Context `{McpSession}.

(** The body of [run_client] inside its two [async with] blocks, from the
    initialization of the session on: the authentication, outside any [try];
    then the creation of the database, the two direct checks and the query
    to the agent, each in its own [try].  The two blocks themselves (the
    transport to the server process and the session object) are taken as
    entered; an exception that leaves this body leaves them too, regrouped
    by their task groups, and nothing below says which exception that is. *)
Definition run_client : Run unit :=
  session_initialize ;;
  print "Authenticating..." ;;
  auth_result <- session_call_tool "superset_auth_authenticate_user"
                   authenticate_arguments ;;
  text <- first_text auth_result ;;
  print ("Auth Result: " ++ text) ;;
  print "Authenticated." ;;
  print ("Connecting to Trino at " ++ trino_ip ++ "...") ;;
  try_except
    (result <- session_call_tool "superset_database_create"
                 database_create_arguments ;;
     text <- first_text result ;;
     print ("Create Database Result: " ++ text))
    (fun e => print ("Database connection error: " ++ exc_str e)) ;;
  print (nl ++ "--- Direct Database List Check ---") ;;
  try_except
    (dbs <- session_call_tool "superset_database_list" [] ;;
     text <- first_text dbs ;;
     print ("Databases found: " ++ text) ;;
     print (nl ++ "--- Direct Schema List Check ---") ;;
     schemas <- session_call_tool "superset_database_schemas"
                  [("database_id", PInt 1)] ;;
     text <- first_text schemas ;;
     print ("Schemas found: " ++ text))
    (fun e => print ("Error listing databases/schemas: " ++ exc_str e)) ;;
  print (nl ++ "Sending Query: " ++ query) ;;
  try_except
    (result <- session_call_tool "superset_ai_analyze"
                 [("query", PStr query)] ;;
     print (nl ++ "Result:") ;;
     text <- first_text result ;;
     print text)
    (fun e => print (nl ++ "Error: " ++ exc_str e)).

(** The three [try] statements of [run_client], each on its own. *)
Definition database_create_block : Run unit :=
  try_except
    (result <- session_call_tool "superset_database_create"
                 database_create_arguments ;;
     text <- first_text result ;;
     print ("Create Database Result: " ++ text))
    (fun e => print ("Database connection error: " ++ exc_str e)).

Definition direct_checks_block : Run unit :=
  try_except
    (dbs <- session_call_tool "superset_database_list" [] ;;
     text <- first_text dbs ;;
     print ("Databases found: " ++ text) ;;
     print (nl ++ "--- Direct Schema List Check ---") ;;
     schemas <- session_call_tool "superset_database_schemas"
                  [("database_id", PInt 1)] ;;
     text <- first_text schemas ;;
     print ("Schemas found: " ++ text))
    (fun e => print ("Error listing databases/schemas: " ++ exc_str e)).

Definition analyze_block : Run unit :=
  try_except
    (result <- session_call_tool "superset_ai_analyze"
                 [("query", PStr query)] ;;
     print (nl ++ "Result:") ;;
     text <- first_text result ;;
     print text)
    (fun e => print (nl ++ "Error: " ++ exc_str e)).

(** [run_client] after the login. *)
Definition after_login (text : string) : Run unit :=
  print ("Auth Result: " ++ text) ;;
  print "Authenticated." ;;
  print ("Connecting to Trino at " ++ trino_ip ++ "...") ;;
  database_create_block ;;
  print (nl ++ "--- Direct Database List Check ---") ;;
  direct_checks_block ;;
  print (nl ++ "Sending Query: " ++ query) ;;
  analyze_block.

End RunClient.

(** The events of the calls the client may make. *)
Definition authenticate_event : client_event :=
  ToolCalled "superset_auth_authenticate_user" authenticate_arguments.
Definition database_create_event : client_event :=
  ToolCalled "superset_database_create" database_create_arguments.
Definition database_list_event : client_event :=
  ToolCalled "superset_database_list" [].
Definition database_schemas_event : client_event :=
  ToolCalled "superset_database_schemas" [("database_id", PInt 1)].
Definition analyze_event : client_event :=
  ToolCalled "superset_ai_analyze" [("query", PStr query)].

(** An outcome that is an exception. *)
Definition raised {A : Type} (r : outcome A) : Prop :=
  match r with
  | Raises _ => True
  | Returns _ => False
  end.

(** The text the client reads from an awaited tool result, [content[0].text],
    or the exception it gets instead: the one the call raised, or the one
    the reading raises. *)
Definition text_of (r : outcome (list content_item)) : outcome string :=
  match r with
  | Raises e => Raises e
  | Returns [] => Raises {| exc_str := "list index out of range" |}
  | Returns (TextContent text :: _) => Returns text
  | Returns (OtherContent type_name :: _) =>
      Raises {| exc_str := "'" ++ type_name
                            ++ "' object has no attribute 'text'" |}
  end.

(** The line the creation of the database prints. *)
Definition create_line (r : outcome string) : string :=
  match r with
  | Returns text => ("Create Database Result: " ++ text)%string
  | Raises e => ("Database connection error: " ++ exc_str e)%string
  end.

(** The line the schema list prints. *)
Definition schemas_line (r : outcome string) : string :=
  match r with
  | Returns found => ("Schemas found: " ++ found)%string
  | Raises e => ("Error listing databases/schemas: " ++ exc_str e)%string
  end.

(** The last line the query to the agent prints. *)
Definition answer_line (r : outcome string) : string :=
  match r with
  | Returns answer => answer
  | Raises e => (nl ++ "Error: " ++ exc_str e)%string
  end.

(** The lines the query to the agent prints. *)
Definition analyze_lines (r : outcome (list content_item)) : list string :=
  match r with
  | Raises e => [(nl ++ "Error: " ++ exc_str e)%string]
  | Returns content =>
      [(nl ++ "Result:")%string; answer_line (text_of (Returns content))]
  end.

(** A session that answers from a table, on a server without state. *)
Definition table_session (up : bool)
    (answer : string -> outcome (list content_item)) : McpSession :=
  {| Server := unit;
     initialize := fun w =>
       (if up then Returns tt
        else Raises {| exc_str := "Connection closed" |}, w);
     call_tool := fun name _ w => (answer name, w) |}.

Definition start (S : McpSession) (w : @Server S) : @client_state S :=
  {| server := w; stdout := []; done := [] |}.

(** A server on which the login works, the database exists already, the
    list of databases cannot be had, and the agent answers. *)
Definition flaky (name : string) : outcome (list content_item) :=
  if (name =? "superset_auth_authenticate_user")%string then
    Returns [TextContent "ok"]
  else if (name =? "superset_database_create")%string then
    Raises {| exc_str := "Database already exists" |}
  else if (name =? "superset_database_list")%string then
    Returns []
  else Returns [TextContent "Here is the chart."].

(** A server that refuses the login. *)
Definition locked (name : string) : outcome (list content_item) :=
  Raises {| exc_str := "Invalid credentials" |}.

(** A server on which everything works. *)
Definition healthy (name : string) : outcome (list content_item) :=
  Returns [TextContent (name ++ " done")].

End VerifyClient.

(** * The agent with collaborator results of any Python type

    The collaborators are annotated to return [Any].  Here their results are
    Python values at large: text of any code points, floating point numbers,
    dictionaries with keys of any hashable type, objects of any other type,
    containers that contain themselves.  On these [json.dumps] is no longer
    total, and the loop is written again with that call as a step that may
    raise, as it stands in [chat], outside any [try]. *)

Module Wide.

(** Python text: a sequence of code points. *)
Definition text : Type := list N.

Definition of_string (s : string) : text :=
  map N_of_ascii (list_ascii_of_string s).

(** A key of a dictionary: text, an integer, a boolean, [None], a floating
    point number (known by the text the encoder writes for it), or a
    hashable value of any other type (a tuple, a frozenset, a date), known
    by the name of its class. *)
Inductive key : Type :=
| KStr (t : text)
| KInt (z : Z)
| KBool (b : bool)
| KNone
| KFloat (written : string)
| KOther (class_name : string).

(** A value: [VFloat] is known by the text the encoder writes for the number
    (its [repr], or [NaN], [Infinity], [-Infinity]); [VList] is a list or a
    tuple; [VObj] is an object of a type the encoder does not know, known by
    what [str()] does on it; [VCyclic] is a container met again inside
    itself. *)
Inductive value : Type :=
| VNone
| VBool (b : bool)
| VInt (z : Z)
| VFloat (written : string)
| VStr (t : text)
| VList (items : list value)
| VDict (items : list (key * value))
| VObj (str_result : outcome text)
| VCyclic.

(** *** json.dumps(value, default=str), in full *)

Definition hex_digit (d : N) : ascii :=
  if (d <? 10)%N then ascii_of_N (48 + d) else ascii_of_N (87 + d).

(** ['{0:04x}'.format(n)], for [n] below 65536. *)
Definition hex4 (n : N) : string :=
  String (hex_digit ((n / 4096) mod 16)%N)
    (String (hex_digit ((n / 256) mod 16)%N)
       (String (hex_digit ((n / 16) mod 16)%N)
          (String (hex_digit (n mod 16)%N) EmptyString))).

Definition u_escape (n : N) : string :=
  (Json.backslash ++ "u" ++ hex4 n)%string.

(** One code point under [ensure_ascii]: the short escapes, the character
    itself when it is printable ASCII, one [\u] escape below 65536, and the
    two escapes of the surrogate pair from there on. *)
Definition escape_code_point (n : N) : string :=
  if (n =? 34)%N then (Json.backslash ++ Json.dquote)%string
  else if (n =? 92)%N then (Json.backslash ++ Json.backslash)%string
  else if (n =? 10)%N then (Json.backslash ++ "n")%string
  else if (n =? 13)%N then (Json.backslash ++ "r")%string
  else if (n =? 9)%N then (Json.backslash ++ "t")%string
  else if (n =? 8)%N then (Json.backslash ++ "b")%string
  else if (n =? 12)%N then (Json.backslash ++ "f")%string
  else if ((32 <=? n) && (n <=? 126))%N then String (ascii_of_N n) EmptyString
  else if (n <? 65536)%N then u_escape n
  else
    let m := (n - 65536)%N in
    (u_escape (N.lor 55296 (N.land (N.shiftr m 10) 1023))
     ++ u_escape (N.lor 56320 (N.land m 1023)))%string.

Fixpoint escape_text (t : text) : string :=
  match t with
  | [] => EmptyString
  | n :: t' => (escape_code_point n ++ escape_text t')%string
  end.

(** A JSON string literal. *)
Definition encode_text (t : text) : string :=
  (Json.dquote ++ escape_text t ++ Json.dquote)%string.

(** The exception for a key of a type that cannot be a JSON key. *)
Definition key_type_error (class_name : string) : Exception :=
  {| exc_str := ("keys must be str, int, float, bool or None, not "
                 ++ class_name)%string |}.

(** The exception for a container met again inside itself. *)
Definition circular_reference : Exception :=
  {| exc_str := "Circular reference detected" |}.

(** A key as the encoder writes it: text as it is, numbers, booleans and
    [None] turned into text, each as a string literal; a [TypeError] for any
    other key ([default] is not asked about keys). *)
Definition encode_key (k : key) : outcome string :=
  match k with
  | KStr t => Returns (encode_text t)
  | KInt z => Returns (encode_text (of_string (Json.encode_int z)))
  | KBool true => Returns (encode_text (of_string "true"))
  | KBool false => Returns (encode_text (of_string "false"))
  | KNone => Returns (encode_text (of_string "null"))
  | KFloat written => Returns (encode_text (of_string written))
  | KOther class_name => Raises (key_type_error class_name)
  end.

(** The encoder, from left to right; it raises what the first failing part
    raises. *)
Fixpoint dumps (v : value) : outcome string :=
  match v with
  | VNone => Returns "null"%string
  | VBool true => Returns "true"%string
  | VBool false => Returns "false"%string
  | VInt z => Returns (Json.encode_int z)
  | VFloat written => Returns written
  | VStr t => Returns (encode_text t)
  | VList items =>
      match
        (fix each (l : list value) : outcome (list string) :=
           match l with
           | [] => Returns []
           | x :: rest =>
               match dumps x with
               | Raises e => Raises e
               | Returns sx =>
                   match each rest with
                   | Raises e => Raises e
                   | Returns srest => Returns (sx :: srest)
                   end
               end
           end) items
      with
      | Raises e => Raises e
      | Returns chunks => Returns ("[" ++ Json.join_comma chunks ++ "]")%string
      end
  | VDict items =>
      match
        (fix each (l : list (key * value)) : outcome (list string) :=
           match l with
           | [] => Returns []
           | (k, x) :: rest =>
               match encode_key k with
               | Raises e => Raises e
               | Returns sk =>
                   match dumps x with
                   | Raises e => Raises e
                   | Returns sx =>
                       match each rest with
                       | Raises e => Raises e
                       | Returns srest =>
                           Returns ((sk ++ ": " ++ sx)%string :: srest)
                       end
                   end
               end
           end) items
      with
      | Raises e => Raises e
      | Returns chunks => Returns ("{" ++ Json.join_comma chunks ++ "}")%string
      end
  | VObj (Returns t) => Returns (encode_text t)
  | VObj (Raises e) => Raises e
  | VCyclic => Raises circular_reference
  end.

(** *** Code units, and reading escaped text back *)

(** A surrogate code point. *)
Definition surrogate (u : N) : bool := ((55296 <=? u) && (u <=? 57343))%N.

(** A Unicode scalar value: a code point that is not a surrogate. *)
Definition scalar (n : N) : bool := ((n <? 1114112) && negb (surrogate n))%N.

(** The 16-bit units the encoder escapes for a code point: the code point
    itself below 65536, the two surrogates of its pair from there on. *)
Definition code_units (n : N) : list N :=
  if (n <? 65536)%N then [n]
  else
    let m := (n - 65536)%N in
    [N.lor 55296 (N.land (N.shiftr m 10) 1023); N.lor 56320 (N.land m 1023)].

(** A 16-bit unit. *)
Definition unit16 (u : N) : Prop := (u < 65536)%N.

(** The value of a lower-case hexadecimal digit. *)
Definition hex_value (c : ascii) : option N :=
  let k := N_of_ascii c in
  if ((48 <=? k) && (k <=? 57))%N then Some (k - 48)%N
  else if ((97 <=? k) && (k <=? 102))%N then Some (k - 87)%N
  else None.

(** Reading back the first unit of escaped text, and the text after it. *)
Definition unescape_unit (s : string) : option (N * string) :=
  match s with
  | EmptyString => None
  | String c rest =>
      if (N_of_ascii c =? 92)%N then
        match rest with
        | EmptyString => None
        | String d rest' =>
            let k := N_of_ascii d in
            if (k =? 117)%N then
              match rest' with
              | String h3 (String h2 (String h1 (String h0 r))) =>
                  match hex_value h3, hex_value h2, hex_value h1, hex_value h0 with
                  | Some a, Some b, Some c', Some d' =>
                      Some ((4096 * a + 256 * b + 16 * c' + d')%N, r)
                  | _, _, _, _ => None
                  end
              | _ => None
              end
            else if (k =? 110)%N then Some (10%N, rest')
            else if (k =? 114)%N then Some (13%N, rest')
            else if (k =? 116)%N then Some (9%N, rest')
            else if (k =? 98)%N then Some (8%N, rest')
            else if (k =? 102)%N then Some (12%N, rest')
            else Some (k, rest')
        end
      else Some (N_of_ascii c, rest)
  end.

(** *** The collaborators, the agent and the computations *)

Class Collaborators : Type := {
  World : Type;
  McpContext : Type;
  client_chat :
    string -> list message -> pyval -> World -> outcome message * World;
  superset_database_list :
    McpContext -> kwargs -> World -> outcome value * World;
  superset_database_get_tables :
    McpContext -> kwargs -> World -> outcome value * World;
  superset_database_schemas :
    McpContext -> kwargs -> World -> outcome value * World;
  superset_sqllab_execute_query :
    McpContext -> kwargs -> World -> outcome value * World;
  superset_chart_create :
    McpContext -> kwargs -> World -> outcome value * World;
  superset_dataset_list :
    McpContext -> kwargs -> World -> outcome value * World
}.

Record SupersetAgent `{Collaborators} : Type := {
  ctx : McpContext;
  model : string;
  history : list message
}.

(** [SupersetAgent.__init__] *)
Definition __init__ `{Collaborators} (c : McpContext) (m : string)
  : SupersetAgent :=
  {| ctx := c; model := m;
     history := [plain_message "system" SYSTEM_PROMPT] |}.

Record state `{Collaborators} : Type := {
  self : SupersetAgent;
  world : World;
  trace : list event
}.

Section Agent.
Context `{Collaborators}.

Definition M (A : Type) : Type := state -> outcome A * state.

Definition ret {A} (a : A) : M A := fun st => (Returns a, st).

Definition bind {A B} (m : M A) (k : A -> M B) : M B :=
  fun st =>
    match m st with
    | (Returns a, st') => k a st'
    | (Raises e, st') => (Raises e, st')
    end.

Definition attempt {A} (m : M A) : M (outcome A) :=
  fun st => let (r, st') := m st in (Returns r, st').

Definition try_except {A} (m : M A) (handler : Exception -> M A) : M A :=
  bind (attempt m)
       (fun r => match r with Returns a => ret a | Raises e => handler e end).

(** The state after [self.history.append(m)]. *)
Definition appended (st : state) (m : message) : state :=
  {| self := {| ctx := ctx (self st); model := model (self st);
                history := history (self st) ++ [m] |};
     world := world st; trace := trace st |}.

(** The state after a request to the model that left the world as [w]. *)
Definition asked (st : state) (w : World) : state :=
  {| self := self st; world := w;
     trace := trace st
              ++ [EvChat (model (self st)) (history (self st)) tools] |}.

(** [self.history.append(m)] *)
Definition history_append (m : message) : M unit :=
  fun st => (Returns tt, appended st m).

(** [self.client.chat(model=self.model, messages=self.history, tools=tools)]
    and [response['message']]. *)
Definition request_completion : M message :=
  fun st =>
    let (r, w) :=
      client_chat (model (self st)) (history (self st)) tools (world st) in
    (r, asked st w).

(** [await f(self.ctx, **kw)], for the collaborator [f] imported as [name]. *)
Definition await (name : string)
    (f : McpContext -> kwargs -> World -> outcome value * World)
    (kw : kwargs) : M value :=
  fun st =>
    let (r, w) := f (ctx (self st)) kw (world st) in
    (r, {| self := self st; world := w;
           trace := trace st ++ [EvCall name kw] |}).

(** [json.dumps(tool_result, default=str)], as a step of the run. *)
Definition json_dumps (tool_result : value) : M string :=
  fun st => (dumps tool_result, st).

End Agent.

Declare Scope wide_scope.
Notation "x <- m ;; k" := (bind m (fun x => k))
  (at level 61, m at next level, right associativity) : wide_scope.
Notation "m ;; k" := (bind m (fun _ => k))
  (at level 61, right associativity) : wide_scope.
Local Open Scope wide_scope.

Section AgentLoop.
Context `{Collaborators}.

(** [{"error": text}] *)
Definition error_payload (msg : string) : value :=
  VDict [(KStr (of_string "error"), VStr (of_string msg))].

(** The body of the [try] of [_execute_tool]. *)
Definition _execute_tool_try (name : string) (args : kwargs) : M value :=
  if (name =? "superset_database_list")%string then
    await "superset_database_list" superset_database_list []
  else if (name =? "superset_database_schemas")%string then
    await "superset_database_schemas" superset_database_schemas args
  else if (name =? "superset_database_get_tables")%string then
    await "superset_database_get_tables" superset_database_get_tables args
  else if (name =? "superset_sqllab_execute_query")%string then
    await "superset_sqllab_execute_query" superset_sqllab_execute_query args
  else if (name =? "superset_chart_create")%string then
    await "superset_chart_create" superset_chart_create args
  else if (name =? "superset_dataset_list")%string then
    await "superset_dataset_list" superset_dataset_list []
  else
    ret (error_payload ("Unknown tool: " ++ name)%string).

(** [SupersetAgent._execute_tool] *)
Definition _execute_tool (name : string) (args : kwargs) : M value :=
  try_except (_execute_tool_try name args)
             (fun e => ret (error_payload (exc_str e))).

(** The [for tool_call in tool_calls] loop of one round; the serialization
    stands between the dispatch and the append, under no [try]. *)
Fixpoint process_tool_calls (tool_calls : list tool_call) : M unit :=
  match tool_calls with
  | [] => ret tt
  | tool_call :: rest =>
      let function_name := function_name tool_call in
      let arguments := function_arguments tool_call in
      tool_result <- _execute_tool function_name arguments ;;
      content <- json_dumps tool_result ;;
      history_append (tool_message content function_name) ;;
      process_tool_calls rest
  end.

(** The body of the main agent loop, one round. *)
Definition chat_round : M (option string) :=
  response <- attempt request_completion ;;
  match response with
  | Raises e =>
      ret (Some ("Error communicating with Ollama: " ++ exc_str e)%string)
  | Returns message =>
      history_append message ;;
      if no_tool_calls message then ret (Some (msg_content message))
      else process_tool_calls (requested message) ;; ret None
  end.

(** [for _ in range(n)] over that body, and the [return] after the loop. *)
Fixpoint chat_loop (n : nat) : M string :=
  match n with
  | O => ret limit_reached
  | S n' =>
      r <- chat_round ;;
      match r with
      | Some answer => ret answer
      | None => chat_loop n'
      end
  end.

(** [SupersetAgent.chat] *)
Definition chat (query : string) : M string :=
  history_append (plain_message "user" query) ;;
  chat_loop 5.

End AgentLoop.

(** *** Concrete collaborators *)

(** Collaborators that answer from a table; the model answers from a script
    indexed by the number of requests it has answered. *)
Definition scripted (script : nat -> outcome message)
    (answer : string -> kwargs -> outcome value) : Collaborators :=
  {| World := nat;
     McpContext := unit;
     client_chat := fun _ _ _ n => (script n, S n);
     superset_database_list :=
       fun _ kw n => (answer "superset_database_list" kw, n);
     superset_database_get_tables :=
       fun _ kw n => (answer "superset_database_get_tables" kw, n);
     superset_database_schemas :=
       fun _ kw n => (answer "superset_database_schemas" kw, n);
     superset_sqllab_execute_query :=
       fun _ kw n => (answer "superset_sqllab_execute_query" kw, n);
     superset_chart_create :=
       fun _ kw n => (answer "superset_chart_create" kw, n);
     superset_dataset_list :=
       fun _ kw n => (answer "superset_dataset_list" kw, n) |}.

Definition fresh (C : Collaborators) (c : @McpContext C) (w : @World C)
  : @state C :=
  {| self := __init__ c default_model; world := w; trace := [] |}.

(** The query tool returns a dictionary with a tuple as a key,
    [{(1, 2): "x"}]; the database list returns a list of records. *)
Definition keyed_by_tuple (name : string) (kw : kwargs) : outcome value :=
  if (name =? "superset_sqllab_execute_query")%string then
    Returns (VDict [(KOther "tuple", VStr (of_string "x"))])
  else
    Returns (VList [VDict [(KStr (of_string "id"), VInt 1);
                           (KStr (of_string "name"),
                            VStr (of_string "examples"))]]).

(** The model asks for the database list and for a query in one round, and
    would answer in text in the next. *)
Definition list_and_query (n : nat) : outcome message :=
  match n with
  | 0 =>
      Returns
        (Demo.assistant_calls
           [ Demo.call "superset_database_list" [];
             Demo.call "superset_sqllab_execute_query"
               [("database_id", PInt 1); ("sql", PStr "SELECT 1")];
             Demo.call "superset_dataset_list" [] ])
  | _ => Returns (Demo.assistant_text "Done.")
  end.

Definition tuple_key_env : Collaborators :=
  scripted list_and_query keyed_by_tuple.

End Wide.

(** * Properties *)

(** ** The serialization *)

Lemma printable_append (a b : string) :
  printable (a ++ b)%string = printable a && printable b.
Proof.
  induction a as [| c a IH]; [reflexivity |].
  cbn. rewrite IH. now rewrite andb_assoc.
Qed.

Lemma escape_char_printable (c : ascii) :
  printable (Json.escape_char c) = true.
Proof. destruct c as [[] [] [] [] [] [] [] []]; reflexivity. Qed.

Lemma encode_str_printable (s : string) :
  printable (Json.encode_str s) = true.
Proof.
  unfold Json.encode_str. rewrite !printable_append.
  assert (printable (Json.escape_chars s) = true) as ->.
  { induction s as [| c s IH]; [reflexivity |].
    cbn. now rewrite printable_append, escape_char_printable, IH. }
  reflexivity.
Qed.

Lemma encode_int_printable (z : Z) : printable (Json.encode_int z) = true.
Proof.
  unfold Json.encode_int.
  assert (Hu : forall d, printable (NilEmpty.string_of_uint d) = true)
    by (induction d; cbn; auto).
  assert (Hz : forall d, printable (NilZero.string_of_uint d) = true)
    by (intros []; cbn; auto; apply Hu).
  destruct (Z.to_int z); cbn; apply Hz.
Qed.

Lemma join_comma_printable (items : list string) :
  Forall (fun s => printable s = true) items ->
  printable (Json.join_comma items) = true.
Proof.
  induction 1 as [| x rest Hx _ IH]; [reflexivity |].
  destruct rest as [| y rest]; [exact Hx |].
  change (Json.join_comma (x :: y :: rest))
    with (x ++ ", " ++ Json.join_comma (y :: rest))%string.
  now rewrite !printable_append, Hx, IH.
Qed.

(** The serialized form of any value is printable ASCII text. *)
Lemma dumps_printable (v : pyval) : printable (Json.dumps v) = true.
Proof.
  induction v as [| [] | z | s | l IH | d IH | s] using pyval_induction;
    try reflexivity.
  - apply encode_int_printable.
  - apply encode_str_printable.
  - cbn [Json.dumps]. rewrite !printable_append.
    rewrite join_comma_printable; [reflexivity |].
    now apply Forall_map.
  - cbn [Json.dumps]. rewrite !printable_append.
    rewrite join_comma_printable; [reflexivity |].
    apply Forall_map. revert IH. apply Forall_impl. intros [k v] Hv.
    cbn [fst snd] in *.
    now rewrite !printable_append, encode_str_printable, Hv.
  - apply encode_str_printable.
Qed.

(** Serializing a value is serializing it with the values of unknown types
    replaced by their string forms. *)
Lemma dumps_stringified (v : pyval) :
  Json.dumps (stringified v) = Json.dumps v.
Proof.
  induction v as [| b | z | s | l IH | d IH | s] using pyval_induction;
    try reflexivity.
  - cbn [stringified Json.dumps]. rewrite map_map.
    now rewrite (map_ext_Forall _ _ IH).
  - cbn [stringified Json.dumps]. rewrite map_map.
    erewrite map_ext_Forall; [reflexivity |].
    revert IH. apply Forall_impl. intros [k v] Hv.
    cbn [fst snd] in *. now rewrite Hv.
Qed.

Section Properties.
Context `{Collaborators}.

Lemma imports_names : map fst imports = operation_names.
Proof. reflexivity. Qed.

Lemma imported_some (name : string) :
  In name operation_names <-> exists f, imported name = Some f.
Proof.
  unfold imported, imports, operation_names; cbn [imported_in In].
  split.
  - intros Hin.
    repeat (destruct Hin as [<- | Hin]; [cbn; eauto |]).
    destruct Hin.
  - intros [f Hf].
    repeat match type of Hf with
    | context [String.eqb name ?s] =>
        destruct (String.eqb_spec name s); [subst; tauto |]
    end.
    discriminate.
Qed.

Lemma imported_none (name : string) :
  ~ In name operation_names <-> imported name = None.
Proof.
  rewrite imported_some. split.
  - destruct (imported name); [intros Hn; exfalso; eauto | reflexivity].
  - intros -> [f Hf]; discriminate.
Qed.

(** The chain of comparisons, read as a lookup of the import and a call. *)
Lemma execute_tool_try_eq (name : string) (args : kwargs) :
  _execute_tool_try name args =
  match imported name with
  | Some f => await name f (passed_arguments name args)
  | None => ret (error_payload ("Unknown tool: " ++ name)%string)
  end.
Proof.
  unfold _execute_tool_try, imported, imports, passed_arguments,
    called_without_arguments; cbn [imported_in].
  repeat match goal with
  | |- context [String.eqb name ?s] =>
      destruct (String.eqb_spec name s); [subst; reflexivity |]
  end.
  reflexivity.
Qed.

(** What [_execute_tool] does, in full. *)
Lemma execute_tool_run (name : string) (args : kwargs) (st : state) :
  _execute_tool name args st =
  match imported name with
  | Some f =>
      let kw := passed_arguments name args in
      match f (ctx (self st)) kw (world st) with
      | (Returns v, w) => (Returns v, called st name kw w)
      | (Raises e, w) => (Returns (error_payload (exc_str e)), called st name kw w)
      end
  | None => (Returns (error_payload ("Unknown tool: " ++ name)%string), st)
  end.
Proof.
  unfold _execute_tool, try_except, bind, attempt.
  rewrite execute_tool_try_eq.
  destruct (imported name) as [f |]; [| reflexivity].
  unfold await, called, ret; cbn.
  destruct (f _ _ _) as [[v | e] w]; reflexivity.
Qed.

Lemma existsb_operation_names (name : string) :
  existsb (String.eqb name) operation_names
  = match imported name with Some _ => true | None => false end.
Proof.
  unfold imported, imports, operation_names; cbn [imported_in existsb].
  repeat match goal with
  | |- context [String.eqb name ?s] =>
      destruct (String.eqb_spec name s); [subst; reflexivity |]
  end.
  reflexivity.
Qed.

Lemma execute_tool_returns (name : string) (args : kwargs) (st : state) :
  exists v st',
    _execute_tool name args st = (Returns v, st') /\
    self st' = self st /\
    trace st' = trace st ++ call_events
                  {| function_name := name; function_arguments := args |}.
Proof.
  rewrite execute_tool_run. unfold call_events; cbn [function_name function_arguments].
  rewrite existsb_operation_names.
  destruct (imported name) as [f |].
  - cbn zeta. destruct (f _ _ _) as [[v | e] w]; eexists; eexists; repeat split.
  - eexists; eexists; repeat split. cbn. now rewrite app_nil_r.
Qed.

Lemma process_tool_calls_dispatched (tcs : list tool_call) :
  forall st, exists vs st',
    process_tool_calls tcs st = (Returns tt, st') /\ dispatched tcs st vs st'.
Proof.
  induction tcs as [| tc rest IH]; intros st.
  - exists [], st. split; [reflexivity | constructor].
  - destruct (execute_tool_returns (function_name tc) (function_arguments tc) st)
      as (v & st1 & Hrun & _).
    destruct (IH (appended st1 (tool_message (Json.dumps v) (function_name tc))))
      as (vs & st2 & Hrest & Hd).
    exists (v :: vs), st2. split.
    + cbn [process_tool_calls]. unfold bind at 1. rewrite Hrun.
      unfold bind at 1. cbn. exact Hrest.
    + econstructor; eassumption.
Qed.

Lemma dispatched_length tcs st vs st' :
  dispatched tcs st vs st' -> length vs = length tcs.
Proof. induction 1; cbn; congruence. Qed.

Lemma dispatched_self tcs st vs st' :
  dispatched tcs st vs st' ->
  ctx (self st') = ctx (self st) /\ model (self st') = model (self st) /\
  history (self st') = history (self st) ++ tool_messages tcs vs.
Proof.
  induction 1 as [st | tc rest st st1 st2 v vs Hrun _ IH].
  - cbn. now rewrite app_nil_r.
  - destruct (execute_tool_returns (function_name tc) (function_arguments tc) st)
      as (v' & st1' & Hrun' & Hself & _).
    rewrite Hrun in Hrun'. injection Hrun' as <- <-.
    destruct IH as (Hc & Hm & Hh). cbn in Hc, Hm, Hh.
    rewrite Hc, Hm, Hh, Hself. repeat split.
    unfold tool_messages; cbn. now rewrite <- app_assoc.
Qed.

Lemma dispatched_trace tcs st vs st' :
  dispatched tcs st vs st' ->
  trace st' = trace st ++ flat_map call_events tcs.
Proof.
  induction 1 as [st | tc rest st st1 st2 v vs Hrun _ IH].
  - cbn. now rewrite app_nil_r.
  - destruct (execute_tool_returns (function_name tc) (function_arguments tc) st)
      as (v' & st1' & Hrun' & _ & Htr).
    rewrite Hrun in Hrun'. injection Hrun' as <- <-.
    rewrite IH. cbn [appended trace flat_map]. rewrite Htr.
    destruct tc; cbn. now rewrite <- app_assoc.
Qed.

(** The tool loop is a function of the requests and the state. *)
Lemma dispatched_functional tcs st vs st' vs2 st2 :
  dispatched tcs st vs st' -> dispatched tcs st vs2 st2 ->
  vs = vs2 /\ st' = st2.
Proof.
  intros Hd. revert vs2 st2.
  induction Hd as [st | tc rest st st1 st' v vs Hrun _ IH]; intros vs2 st2 Hd2.
  - inversion Hd2; subst. now split.
  - inversion Hd2 as [| ? ? ? st1b ? vb vsb Hrunb Hrestb]; subst.
    rewrite Hrun in Hrunb. injection Hrunb as <- <-.
    destruct (IH _ _ Hrestb) as [-> ->]. now split.
Qed.

(** The tool loop always runs to its end. *)
Lemma process_tool_calls_run (tcs : list tool_call) (st : state) :
  process_tool_calls tcs st = (Returns tt, snd (process_tool_calls tcs st)) /\
  exists vs, dispatched tcs st vs (snd (process_tool_calls tcs st)).
Proof.
  destruct (process_tool_calls_dispatched tcs st) as (vs & st' & Hrun & Hd).
  rewrite Hrun; cbn. split; [reflexivity | eauto].
Qed.

(** *** Rounds *)

(** What one round does, in full. *)
Lemma chat_round_run (st : state) :
  chat_round st =
  match client_chat (model (self st)) (history (self st)) tools (world st) with
  | (Raises e, w) =>
      (Returns (Some ("Error communicating with Ollama: " ++ exc_str e)%string),
       asked st w)
  | (Returns m, w) =>
      if no_tool_calls m
      then (Returns (Some (msg_content m)), appended (asked st w) m)
      else (Returns None,
            snd (process_tool_calls (requested m) (appended (asked st w) m)))
  end.
Proof.
  unfold chat_round, bind, attempt, request_completion.
  destruct (client_chat _ _ _ _) as [[m | e] w]; [| reflexivity].
  fold (asked st w). cbn [history_append]. fold (appended (asked st w) m).
  destruct (no_tool_calls m); [reflexivity |].
  destruct (process_tool_calls_dispatched (requested m) (appended (asked st w) m))
    as (vs & st' & -> & _).
  reflexivity.
Qed.

(** A round that ran to its end: the model answered with requests, and they
    were dispatched. *)
Lemma chat_round_continues (st st1 : state) :
  chat_round st = (Returns None, st1) <->
  exists m w vs,
    client_chat (model (self st)) (history (self st)) tools (world st)
      = (Returns m, w) /\
    no_tool_calls m = false /\
    dispatched (requested m) (appended (asked st w) m) vs st1.
Proof.
  rewrite chat_round_run. split.
  - destruct (client_chat _ _ _ _) as [[m | e] w]; [| discriminate].
    destruct (no_tool_calls m) eqn:Hm; [discriminate |].
    destruct (process_tool_calls_dispatched (requested m) (appended (asked st w) m))
      as (vs & st' & Hrun & Hd).
    rewrite Hrun; cbn. intros [= <-]. eauto 6.
  - intros (m & w & vs & -> & -> & Hd).
    destruct (process_tool_calls_dispatched (requested m) (appended (asked st w) m))
      as (vs' & st' & Hrun & Hd').
    rewrite Hrun; cbn. f_equal.
    exact (proj2 (dispatched_functional _ _ _ _ _ _ Hd' Hd)).
Qed.

(** *** Counting in traces *)

Lemma model_calls_app (a b : list event) :
  model_calls (a ++ b) = model_calls a + model_calls b.
Proof. unfold model_calls. now rewrite filter_app, length_app. Qed.

Lemma tool_dispatches_app (a b : list event) :
  tool_dispatches (a ++ b) = tool_dispatches a ++ tool_dispatches b.
Proof. apply filter_app. Qed.

Lemma call_events_calls (tcs : list tool_call) :
  model_calls (flat_map call_events tcs) = 0 /\
  tool_dispatches (flat_map call_events tcs) = flat_map call_events tcs.
Proof.
  induction tcs as [| tc rest [IH1 IH2]]; [now split |].
  cbn [flat_map]. rewrite model_calls_app, tool_dispatches_app, IH1, IH2.
  unfold call_events. destruct (existsb _ _); now split.
Qed.



(** Rounds that ran to their end use up as many turns of the loop. *)
Lemma chat_loop_continued k st st' :
  continued k st st' -> forall n, chat_loop (k + n) st = chat_loop n st'.
Proof.
  induction 1 as [st | k st st1 st2 Hround _ IH]; intros n; [reflexivity |].
  cbn [Nat.add chat_loop]. unfold bind at 1. rewrite Hround. apply IH.
Qed.

(** [chat] is the user message and then the loop of five rounds. *)
Lemma chat_eq (query : string) (st : state) :
  chat query st = chat_loop 5 (appended st (plain_message "user" query)).
Proof. reflexivity. Qed.

(** *** What every round and every run of the loop does *)

Lemma extends_history_weaken (h new : list message) (evs : list event) :
  Forall (extends_history (h ++ new)) evs -> Forall (extends_history h) evs.
Proof.
  apply Forall_impl. intros [mdl msgs ts | name kw]; cbn; [| trivial].
  intros [Hts [more ->]]. split; [exact Hts |].
  exists (new ++ more). now rewrite app_assoc.
Qed.

Lemma extends_history_call_events (h : list message) (tcs : list tool_call) :
  Forall (extends_history h) (flat_map call_events tcs).
Proof.
  induction tcs as [| tc rest IH]; [constructor |].
  cbn [flat_map]. apply Forall_app. split; [| exact IH].
  unfold call_events. destruct (existsb _ _); repeat constructor.
Qed.

(** A round always returns; it keeps the context and the model identifier,
    appends to the history, and does to the outside one request to the model,
    made with the whole history and [tools], followed by collaborator calls. *)
Lemma chat_round_spec (st : state) :
  exists r st' new calls,
    chat_round st = (Returns r, st') /\
    ctx (self st') = ctx (self st) /\ model (self st') = model (self st) /\
    history (self st') = history (self st) ++ new /\
    trace st' = trace st
                ++ EvChat (model (self st)) (history (self st)) tools :: calls /\
    model_calls calls = 0 /\
    Forall (extends_history (history (self st))) calls.
Proof.
  rewrite chat_round_run.
  destruct (client_chat _ _ _ _) as [[m | e] w].
  - destruct (no_tool_calls m).
    + exists (Some (msg_content m)), (appended (asked st w) m), [m], [].
      repeat split; constructor.
    + destruct (process_tool_calls_run (requested m) (appended (asked st w) m))
        as (_ & vs & Hd).
      destruct (dispatched_self _ _ _ _ Hd) as (Hc & Hm & Hh).
      pose proof (dispatched_trace _ _ _ _ Hd) as Htr.
      exists None, (snd (process_tool_calls (requested m) (appended (asked st w) m))),
        (m :: tool_messages (requested m) vs), (flat_map call_events (requested m)).
      repeat split; try assumption.
      * rewrite Hh. cbn. now rewrite <- app_assoc.
      * rewrite Htr. cbn. now rewrite <- app_assoc.
      * apply call_events_calls.
      * apply extends_history_call_events.
  - exists (Some ("Error communicating with Ollama: " ++ exc_str e)%string),
      (asked st w), [], [].
    repeat split; try constructor. cbn. now rewrite app_nil_r.
Qed.

(** The loop always returns, after at most [n] requests to the model; it
    keeps the context and the model identifier and only appends to the
    history; every request it makes carries [tools] and messages that extend
    the history it started from, and, when it makes a turn at all, its first
    request carries exactly that history. *)
Lemma chat_loop_spec (n : nat) :
  forall st, exists a st' new evs,
    chat_loop n st = (Returns a, st') /\
    ctx (self st') = ctx (self st) /\ model (self st') = model (self st) /\
    history (self st') = history (self st) ++ new /\
    trace st' = trace st ++ evs /\
    model_calls evs <= n /\
    Forall (extends_history (history (self st))) evs /\
    (0 < n -> exists rest,
        evs = EvChat (model (self st)) (history (self st)) tools :: rest).
Proof.
  induction n as [| n IH]; intros st.
  - exists limit_reached, st, [], []. cbn.
    repeat split; try constructor; try now rewrite app_nil_r. lia.
  - destruct (chat_round_spec st)
      as (r & st1 & new1 & calls & Hround & Hc1 & Hm1 & Hh1 & Htr1 & Hn1 & Hx1).
    assert (Hhead : extends_history (history (self st))
                      (EvChat (model (self st)) (history (self st)) tools)).
    { split; [reflexivity |]. exists []. now rewrite app_nil_r. }
    cbn [chat_loop]. unfold bind at 1. rewrite Hround.
    destruct r as [answer |].
    + exists answer, st1, new1,
        (EvChat (model (self st)) (history (self st)) tools :: calls).
      repeat split; try assumption.
      * change (EvChat ?a ?b ?c :: ?l) with ([EvChat a b c] ++ l).
        rewrite model_calls_app, Hn1. cbn. lia.
      * now constructor.
      * eauto.
    + destruct (IH st1)
        as (a & st' & new & evs & Hloop & Hc & Hm & Hh & Htr & Hn & Hx & _).
      exists a, st', (new1 ++ new),
        (EvChat (model (self st)) (history (self st)) tools :: calls ++ evs).
      repeat split.
      * exact Hloop.
      * congruence.
      * congruence.
      * rewrite Hh, Hh1. now rewrite <- app_assoc.
      * rewrite Htr, Htr1. rewrite <- app_assoc. reflexivity.
      * change (EvChat ?a ?b ?c :: ?l) with ([EvChat a b c] ++ l).
        rewrite !model_calls_app, Hn1. cbn. lia.
      * constructor; [exact Hhead |]. apply Forall_app. split; [exact Hx1 |].
        rewrite Hh1 in Hx. now apply extends_history_weaken in Hx.
      * eauto.
Qed.

(** ** The round bound *)


(** ** Failure of the language model *)

(** C4. Whichever round it is (after [k < 5] rounds that ran to their end),
    when the request to the language model raises, [chat] returns at once the
    text "Error communicating with Ollama: " followed by the text of the
    exception: the request is the last thing done, the state is the one the
    failed request left, with no message appended and no tool dispatched. *)
Theorem chat_model_failure_is_final
    (query : string) (st st_k : state) (k : nat) (e : Exception) (w : World) :
  k < 5 ->
  continued k (appended st (plain_message "user" query)) st_k ->
  client_chat (model (self st_k)) (history (self st_k)) tools (world st_k)
    = (Raises e, w) ->
  chat query st
    = (Returns ("Error communicating with Ollama: " ++ exc_str e)%string,
       {| self := self st_k; world := w;
          trace := trace st_k
                   ++ [EvChat (model (self st_k)) (history (self st_k)) tools] |}).
Proof.
  intros Hk Hrounds Hraise.
  rewrite chat_eq.
  replace 5 with (k + S (4 - k)) by lia.
  rewrite (chat_loop_continued _ _ _ Hrounds).
  cbn [chat_loop]. unfold bind at 1.
  rewrite chat_round_run, Hraise. reflexivity.
Qed.

(** ** A plain answer *)

(** C5. When the first response of the model carries no tool invocation
    request, [chat] returns the content of that response as it is; the only
    thing done to the outside is that one request to the model, and the
    history gains the user message and the response. *)
Theorem chat_plain_answer
    (query : string) (st : state) (m : message) (w : World) :
  client_chat (model (self st))
    (history (self st) ++ [plain_message "user" query]) tools (world st)
    = (Returns m, w) ->
  no_tool_calls m = true ->
  chat query st
    = (Returns (msg_content m),
       {| self := {| ctx := ctx (self st); model := model (self st);
                     history := history (self st)
                                ++ [plain_message "user" query] ++ [m] |};
          world := w;
          trace := trace st
                   ++ [EvChat (model (self st))
                         (history (self st) ++ [plain_message "user" query])
                         tools] |}).
Proof.
  intros Hm Hnone.
  rewrite chat_eq. cbn [chat_loop]. unfold bind at 1.
  rewrite chat_round_run. cbn [appended self model history world].
  rewrite Hm, Hnone. unfold ret, appended, asked; cbn.
  now rewrite <- app_assoc.
Qed.

(** ** Dispatch *)

(** C2. For a name that is not one of the six operation names,
    [_execute_tool] returns the payload [{error: Unknown tool: <name>}] with
    that name in it; it does not raise, and the state is untouched: no
    collaborator is called. *)
Theorem execute_tool_unknown_name
    (name : string) (args : kwargs) (st : state) :
  ~ In name operation_names ->
  _execute_tool name args st
    = (Returns (PDict [("error", PStr ("Unknown tool: " ++ name)%string)]), st).
Proof.
  intros Hname%imported_none.
  rewrite execute_tool_run, Hname. reflexivity.
Qed.

Lemma guarded_call_run name f kw (st : state) :
  guarded_call name f kw st =
  match f (ctx (self st)) kw (world st) with
  | (Returns v, w) => (Returns v, called st name kw w)
  | (Raises e, w) => (Returns (error_payload (exc_str e)), called st name kw w)
  end.
Proof.
  unfold guarded_call, try_except, bind, attempt, await, called, ret.
  destruct (f _ _ _) as [[v | e] w]; reflexivity.
Qed.

Lemma execute_tool_guarded name args f :
  imported name = Some f ->
  forall st,
    _execute_tool name args st
    = guarded_call name f (passed_arguments name args) st.
Proof.
  intros Hf st. rewrite execute_tool_run, guarded_call_run, Hf. reflexivity.
Qed.

(** C8, as the code has it. For the four operations that take parameters,
    [_execute_tool] calls the collaborator imported under the name with the
    argument mapping of the request as its keyword arguments, whatever that
    mapping is (it checks nothing about it); for the two list operations it
    calls the collaborator with the context alone and does not pass the
    argument mapping on. *)
Theorem execute_tool_invokes_collaborator
    (name : string) (args : kwargs) (st : state) (f : collaborator) :
  imported name = Some f ->
  (In name [ "superset_database_schemas"; "superset_database_get_tables";
             "superset_sqllab_execute_query"; "superset_chart_create" ] ->
   _execute_tool name args st = guarded_call name f args st /\
   trace (snd (_execute_tool name args st)) = trace st ++ [EvCall name args])
  /\
  (In name [ "superset_database_list"; "superset_dataset_list" ] ->
   _execute_tool name args st = guarded_call name f [] st /\
   trace (snd (_execute_tool name args st)) = trace st ++ [EvCall name []]).
Proof.
  intros Hf.
  assert (Htrace : forall kw,
             trace (snd (guarded_call name f kw st))
             = trace st ++ [EvCall name kw]).
  { intros kw. rewrite guarded_call_run.
    destruct (f _ _ _) as [[v | e] w]; reflexivity. }
  split; intros Hin; rewrite (execute_tool_guarded _ args _ Hf);
    cbn [In] in Hin;
    repeat (destruct Hin as [<- | Hin]; [now split |]);
    destruct Hin.
Qed.

(** ** Failure of a collaborator *)





(** ** The order of the conversation *)

Lemma tool_messages_tags tcs vs :
  length vs = length tcs ->
  Forall (fun msg => msg_role msg = "tool") (tool_messages tcs vs) /\
  map msg_name (tool_messages tcs vs)
    = map (fun tc => Some (function_name tc)) tcs.
Proof.
  revert vs. unfold tool_messages.
  induction tcs as [| tc rest IH]; intros [| v vs] Hlen; try discriminate.
  - split; [constructor | reflexivity].
  - destruct (IH vs ltac:(now injection Hlen)) as [IH1 IH2].
    cbn. split; [now constructor | now f_equal].
Qed.

Lemma continued_rounds n st st' :
  continued n st st' ->
  exists rs : list round,
    length rs = n /\
    Forall well_formed_round rs /\
    history (self st') = history (self st) ++ flat_map round_messages rs /\
    model (self st') = model (self st) /\
    trace st' = trace st ++ flat_map (round_events (model (self st))) rs.
Proof.
  induction 1 as [st | n st st1 st2 Hround _ IH].
  - exists []. cbn. rewrite !app_nil_r. repeat split. constructor.
  - destruct IH as (rs & Hlen & Hwf & Hh & Hmdl & Htr).
    apply chat_round_continues in Hround as (m & w & vs & Hm & Hcalls & Hd).
    destruct (dispatched_self _ _ _ _ Hd) as (_ & Hmdl1 & Hh1).
    pose proof (dispatched_trace _ _ _ _ Hd) as Htr1.
    pose proof (dispatched_length _ _ _ _ Hd) as Hlen1.
    exists ({| sent := history (self st); response := m; results := vs |} :: rs).
    repeat split.
    + cbn. now f_equal.
    + constructor; [| exact Hwf].
      unfold well_formed_round; cbn.
      destruct (tool_messages_tags _ _ Hlen1). now repeat split.
    + rewrite Hh, Hh1. cbn. now rewrite <- !app_assoc.
    + rewrite Hmdl, Hmdl1. reflexivity.
    + rewrite Htr, Htr1, Hmdl1. cbn. now rewrite <- !app_assoc.
Qed.

(** C6. After [N] rounds that each carried tool invocation requests, the
    history is the history before the call, the user message, and then round
    after round the response of the model followed by one tool message per
    request, in the order of the requests, each with role tool and with the
    operation name of its request as its name; and what was done to the
    outside is, round after round, the request to the model followed by the
    collaborator calls of the requests, in that same order, one after the
    other. *)
Theorem conversation_after_rounds
    (N : nat) (query : string) (st stN : state) :
  continued N (appended st (plain_message "user" query)) stN ->
  exists rs : list round,
    length rs = N /\
    Forall well_formed_round rs /\
    history (self stN)
      = history (self st)
        ++ plain_message "user" query :: flat_map round_messages rs /\
    trace stN = trace st ++ flat_map (round_events (model (self st))) rs.
Proof.
  intros (rs & Hlen & Hwf & Hh & _ & Htr)%continued_rounds.
  exists rs. repeat split; try assumption.
  rewrite Hh. cbn. now rewrite <- app_assoc.
Qed.

(** ** The schema list and the dispatch *)

Lemma schema_names_tools : schema_names tools = operation_names.
Proof. reflexivity. Qed.

(** C7. The operation names of the schema list [tools] are exactly the names
    for which [_execute_tool] calls a collaborator (and the names not among
    them are exactly those it answers with the unknown-tool payload, calling
    nothing); there are six of them, without repetition; and every request
    [chat] makes to the model carries that same list [tools]. *)
Theorem schema_names_are_dispatchable :
  (forall name args st,
      In name (schema_names tools) <->
      exists kw,
        trace (snd (_execute_tool name args st)) = trace st ++ [EvCall name kw])
  /\
  (forall name args st,
      ~ In name (schema_names tools) <->
      _execute_tool name args st
      = (Returns (error_payload ("Unknown tool: " ++ name)%string), st))
  /\
  length (schema_names tools) = 6 /\ NoDup (schema_names tools) /\
  (forall query st, exists evs,
      trace (snd (chat query st)) = trace st ++ evs /\
      Forall carries_tools evs).
Proof.
  rewrite schema_names_tools.
  assert (Hknown : forall name args st f, imported name = Some f ->
            trace (snd (_execute_tool name args st))
            = trace st ++ [EvCall name (passed_arguments name args)]).
  { intros name args st f Hf. rewrite execute_tool_run, Hf. cbn zeta.
    destruct (f _ _ _) as [[v | e] w]; reflexivity. }
  assert (Hneq : forall (tr : list event) ev, tr <> tr ++ [ev]).
  { intros tr ev Heq. apply (f_equal (@length _)) in Heq.
    rewrite length_app in Heq. cbn in Heq. lia. }
  repeat split.
  - intros [f Hf]%imported_some. eauto.
  - intros [kw Hkw]. destruct (imported name) as [f |] eqn:Hf.
    + apply imported_some. eauto.
    + rewrite execute_tool_run, Hf in Hkw. cbn in Hkw.
      now apply Hneq in Hkw.
  - intros Hname%imported_none. rewrite execute_tool_run, Hname. reflexivity.
  - intros Hrun [f Hf]%imported_some.
    pose proof (Hknown name args st f Hf) as Htr.
    rewrite Hrun in Htr. cbn in Htr. now apply Hneq in Htr.
  - unfold operation_names.
    repeat (constructor; [cbn; intuition discriminate |]). constructor.
  - intros query st. rewrite chat_eq.
    destruct (chat_loop_spec 5 (appended st (plain_message "user" query)))
      as (a & st' & new & evs & Hloop & _ & _ & _ & Htr & _ & Hx & _).
    exists evs. rewrite Hloop. split; [exact Htr |].
    revert Hx. apply Forall_impl.
    intros [mdl msgs ts | name kw] Hev; [exact (proj1 Hev) | exact I].
Qed.

(** ** The history across calls *)


End Properties.

(** * The properties on concrete collaborators *)

Section Concrete.
Import Demo.

(** The scenario of the database list: two rounds, and the text of the model
    as the answer. *)
Example scenario_list_databases :
  let r := chat "list databases" (fresh scenario_env tt 0) in
  fst r = Returns "Found 1 database: examples" /\
  model_calls (trace (snd r)) = 2 /\
  tool_dispatches (trace (snd r)) = [EvCall "superset_database_list" []] /\
  map msg_role (history (self (snd r)))
    = ["system"; "user"; "assistant"; "tool"; "assistant"].
Proof. vm_compute. repeat split. Qed.

(** The scenario of the misspelt operation name: the payload goes back to
    the model and the loop goes on to its second round. *)
Example scenario_typo :
  let r := chat "list databases" (fresh typo_env tt 0) in
  fst r = Returns "Sorry." /\
  model_calls (trace (snd r)) = 2 /\
  tool_dispatches (trace (snd r)) = [] /\
  nth_error (history (self (snd r))) 3
    = Some (tool_message
              (Json.dumps
                 (PDict [("error", PStr "Unknown tool: superset_database_lsit")]))
              "superset_database_lsit").
Proof. vm_compute. repeat split. Qed.

Example dumps_error_payload :
  Json.dumps (PDict [("error", PStr "Unknown tool: x")])
  = ("{" ++ Json.dquote ++ "error" ++ Json.dquote ++ ": "
     ++ Json.dquote ++ "Unknown tool: x" ++ Json.dquote ++ "}")%string.
Proof. reflexivity. Qed.

Example dumps_escapes :
  Json.dumps (PList [PInt (-12); PBool true; PNone; PObj "2024-01-01";
                     PStr (String (ascii_of_nat 10) (String (ascii_of_nat 233) EmptyString))])
  = ("[-12, true, null, " ++ Json.dquote ++ "2024-01-01" ++ Json.dquote ++ ", "
     ++ Json.dquote ++ Json.backslash ++ "n" ++ Json.backslash ++ "u00e9"
     ++ Json.dquote ++ "]")%string.
Proof. reflexivity. Qed.


(** The misspelt name of the scenario. *)
Lemma execute_tool_unknown_name_witness :
  ~ In "superset_database_lsit" operation_names /\
  _execute_tool "superset_database_lsit" [] (fresh typo_env tt 0)
    = (Returns (PDict [("error", PStr "Unknown tool: superset_database_lsit")]),
       fresh typo_env tt 0).
Proof.
  assert (Hname : ~ In "superset_database_lsit" operation_names).
  { cbn. intuition discriminate. }
  split; [exact Hname |].
  exact (@execute_tool_unknown_name typo_env "superset_database_lsit" []
           (fresh typo_env tt 0) Hname).
Defined.


(** The model is gone in the second round. *)
Lemma chat_model_failure_is_final_witness :
  1 < 5 /\
  continued 1
    (appended (fresh explore_env tt 0) (plain_message "user" "explore"))
    (snd (chat_round
            (appended (fresh explore_env tt 0) (plain_message "user" "explore"))))
  /\
  fst (chat "explore" (fresh explore_env tt 0))
    = Returns "Error communicating with Ollama: Failed to connect to Ollama".
Proof.
  assert (Hrounds :
    continued 1
      (appended (fresh explore_env tt 0) (plain_message "user" "explore"))
      (snd (chat_round
              (appended (fresh explore_env tt 0)
                 (plain_message "user" "explore"))))).
  { econstructor; [reflexivity | constructor]. }
  split; [lia | split; [exact Hrounds |]].
  rewrite (@chat_model_failure_is_final explore_env "explore"
             (fresh explore_env tt 0) _ 1
             {| exc_str := "Failed to connect to Ollama" |} 2
             ltac:(lia) Hrounds eq_refl).
  reflexivity.
Defined.

(** The model asks back instead of calling a tool. *)
Lemma chat_plain_answer_witness :
  no_tool_calls (assistant_text "Which database do you mean?") = true /\
  fst (chat "show me sales" (fresh plain_env tt 0))
    = Returns "Which database do you mean?" /\
  trace (snd (chat "show me sales" (fresh plain_env tt 0)))
    = [EvChat "llama3"
         [plain_message "system" SYSTEM_PROMPT;
          plain_message "user" "show me sales"] tools].
Proof.
  split; [reflexivity |].
  rewrite (@chat_plain_answer plain_env "show me sales" (fresh plain_env tt 0)
             (assistant_text "Which database do you mean?") 1
             eq_refl eq_refl).
  split; reflexivity.
Defined.

(** The first round of the scenario of the database list. *)
Lemma conversation_after_rounds_witness :
  exists rs : list round,
    length rs = 1 /\
    Forall well_formed_round rs /\
    history (self (snd (chat_round
               (appended (fresh scenario_env tt 0)
                  (plain_message "user" "list databases")))))
      = history (self (fresh scenario_env tt 0))
        ++ plain_message "user" "list databases"
           :: flat_map round_messages rs.
Proof.
  destruct (@conversation_after_rounds scenario_env 1 "list databases"
              (fresh scenario_env tt 0)
              (snd (chat_round
                      (appended (fresh scenario_env tt 0)
                         (plain_message "user" "list databases")))))
    as (rs & Hlen & Hwf & Hh & _).
  { econstructor; [reflexivity | constructor]. }
  exists rs. repeat split; assumption.
Defined.

(** A query is passed on with its arguments; the database list is called
    without the arguments of the request. *)
Lemma execute_tool_invokes_collaborator_witness :
  trace (snd (_execute_tool "superset_sqllab_execute_query"
                [("database_id", PInt 1); ("sql", PStr "SELECT 1")]
                (fresh scenario_env tt 0)))
    = [EvCall "superset_sqllab_execute_query"
         [("database_id", PInt 1); ("sql", PStr "SELECT 1")]] /\
  trace (snd (_execute_tool "superset_database_list" [("limit", PInt 10)]
                (fresh scenario_env tt 0)))
    = [EvCall "superset_database_list" []].
Proof.
  split.
  - destruct (@execute_tool_invokes_collaborator scenario_env
                "superset_sqllab_execute_query"
                [("database_id", PInt 1); ("sql", PStr "SELECT 1")]
                (fresh scenario_env tt 0)
                (@superset_sqllab_execute_query scenario_env) eq_refl)
      as [Hargs _].
    exact (proj2 (Hargs ltac:(cbn; tauto))).
  - destruct (@execute_tool_invokes_collaborator scenario_env
                "superset_database_list" [("limit", PInt 10)]
                (fresh scenario_env tt 0)
                (@superset_database_list scenario_env) eq_refl)
      as [_ Hnone].
    exact (proj2 (Hnone ltac:(cbn; tauto))).
Defined.

(** C8 as it is worded fails on the database list: the collaborator, a
    function without parameters, is called without the argument mapping and
    answers, where a call with the mapping unpacked would have raised. *)
Lemma list_operations_drop_arguments :
  In "superset_database_list" operation_names /\
  _execute_tool "superset_database_list" [("limit", PInt 10)]
      (fresh scenario_env tt 0)
    = (Returns (PList [PDict [("id", PInt 1); ("name", PStr "examples")]]),
       called (fresh scenario_env tt 0) "superset_database_list" [] 0) /\
  spec_execute_tool "superset_database_list" [("limit", PInt 10)]
      (fresh scenario_env tt 0)
    = (Returns
         (PDict [("error",
                  PStr "superset_database_list() got an unexpected keyword argument 'limit'")]),
       called (fresh scenario_env tt 0) "superset_database_list"
         [("limit", PInt 10)] 0) /\
  _execute_tool "superset_database_list" [("limit", PInt 10)]
      (fresh scenario_env tt 0)
  <> spec_execute_tool "superset_database_list" [("limit", PInt 10)]
       (fresh scenario_env tt 0).
Proof.
  repeat split.
  - cbn. tauto.
  - discriminate.
Qed.


End Concrete.

(** * Further properties of the agent *)

Section Further.
Context `{Collaborators}.

(** How a run of the loop ends: after some rounds that ran to their end,
    either the turns are used up, or the request to the model raises, or the
    model answers without requests. *)
Lemma chat_loop_ends (n : nat) :
  forall st, exists k st_k,
    k <= n /\ continued k st st_k /\
    ((k = n /\ chat_loop n st = (Returns limit_reached, st_k))
     \/
     (k < n /\ exists e w,
        client_chat (model (self st_k)) (history (self st_k)) tools (world st_k)
          = (Raises e, w) /\
        chat_loop n st
          = (Returns ("Error communicating with Ollama: " ++ exc_str e)%string,
             asked st_k w))
     \/
     (k < n /\ exists m w,
        client_chat (model (self st_k)) (history (self st_k)) tools (world st_k)
          = (Returns m, w) /\
        no_tool_calls m = true /\
        chat_loop n st = (Returns (msg_content m), appended (asked st_k w) m))).
Proof.
  induction n as [| n IH]; intros st.
  - exists 0, st. split; [lia |]. split; [constructor |]. left. now split.
  - pose proof (chat_round_run st) as Hround.
    destruct (client_chat (model (self st)) (history (self st)) tools (world st))
      as [[m | e] w] eqn:Hm.
    + destruct (no_tool_calls m) eqn:Hcalls.
      * exists 0, st. split; [lia |]. split; [constructor |].
        right; right. split; [lia |]. exists m, w. repeat split; try assumption.
        cbn [chat_loop]. unfold bind at 1. now rewrite Hround.
      * destruct (IH (snd (process_tool_calls (requested m)
                             (appended (asked st w) m))))
          as (k & st_k & Hk & Hrounds & Hend).
        exists (S k), st_k. split; [lia |].
        split; [econstructor; eassumption |].
        assert (Hstep : chat_loop (S n) st
                        = chat_loop n (snd (process_tool_calls (requested m)
                                              (appended (asked st w) m)))).
        { cbn [chat_loop]. unfold bind at 1. now rewrite Hround. }
        rewrite Hstep.
        destruct Hend as [[-> Hend] | [[Hlt Hend] | [Hlt Hend]]].
        -- left. now split.
        -- right; left. split; [lia | exact Hend].
        -- right; right. split; [lia | exact Hend].
    + exists 0, st. split; [lia |]. split; [constructor |].
      right; left. split; [lia |]. exists e, w. split; [exact Hm |].
      cbn [chat_loop]. unfold bind at 1. now rewrite Hround.
Qed.

(** X1. Whatever the language model and the collaborators do, a call of
    [chat] makes at most five requests to the model, and it leaves the
    context and the model identifier of the agent as they were.  (Nothing is
    said here about the call returning: a run that an exception cuts short
    has made no more requests than the run to its end.) *)
Theorem chat_request_budget (query : string) (st : state) :
  model_calls (trace (snd (chat query st))) <= model_calls (trace st) + 5 /\
  ctx (self (snd (chat query st))) = ctx (self st) /\
  model (self (snd (chat query st))) = model (self st).
Proof.
  rewrite chat_eq.
  destruct (chat_loop_spec 5 (appended st (plain_message "user" query)))
    as (a & st' & new & evs & Hloop & Hc & Hm & _ & Htr & Hle & _ & _).
  cbn [appended trace self ctx model] in Htr, Hc, Hm.
  rewrite Hloop. cbn [snd]. repeat split; try assumption.
  rewrite Htr, model_calls_app. lia.
Qed.

(** X2. Whenever a call of [chat] returns a value, it went one of three
    ways: some [k <= 5] rounds ran to their end, and then either [k = 5] and
    the value is the fixed message; or the next request to the model raised
    and the value is the error text, the state being the one that request
    left; or the model answered without requests and the value is the
    content of that answer, the answer being the last message of the
    history. *)
Theorem chat_returns_in_one_of_three_ways
    (query : string) (st st' : state) (a : string) :
  chat query st = (Returns a, st') ->
  exists k st_k,
    k <= 5 /\
    continued k (appended st (plain_message "user" query)) st_k /\
    ((k = 5 /\
      a = "Agent loop limit reached without final answer." /\ st' = st_k)
     \/
     (k < 5 /\ exists e w,
        client_chat (model (self st_k)) (history (self st_k)) tools (world st_k)
          = (Raises e, w) /\
        a = ("Error communicating with Ollama: " ++ exc_str e)%string /\
        st' = asked st_k w)
     \/
     (k < 5 /\ exists m w,
        client_chat (model (self st_k)) (history (self st_k)) tools (world st_k)
          = (Returns m, w) /\
        no_tool_calls m = true /\
        a = msg_content m /\
        st' = appended (asked st_k w) m /\
        history (self st') = history (self st_k) ++ [m])).
Proof.
  intros Hchat.
  destruct (chat_loop_ends 5 (appended st (plain_message "user" query)))
    as (k & st_k & Hk & Hrounds & Hend).
  exists k, st_k. split; [exact Hk |]. split; [exact Hrounds |].
  rewrite chat_eq in Hchat.
  destruct Hend as [(Hk5 & Hrun) | [(Hlt & e & w & He & Hrun)
                                   | (Hlt & m & w & Hm & Hcalls & Hrun)]];
    rewrite Hrun in Hchat; injection Hchat as <- <-.
  - left. now repeat split.
  - right; left. split; [exact Hlt |]. exists e, w. now repeat split.
  - right; right. split; [exact Hlt |]. exists m, w. now repeat split.
Qed.

Lemma call_events_known (mdl : string) (tcs : list tool_call) :
  Forall (known_event mdl) (flat_map call_events tcs).
Proof.
  induction tcs as [| tc rest IH]; [constructor |].
  cbn [flat_map]. apply Forall_app. split; [| exact IH].
  unfold call_events.
  destruct (existsb _ _) eqn:Hex; [| constructor].
  constructor; [| constructor]. split.
  - apply existsb_exists in Hex as (n & Hin & Heq).
    apply String.eqb_eq in Heq. now subst.
  - unfold passed_arguments. now intros ->.
Qed.

Lemma chat_round_known (st : state) :
  exists r st' calls,
    chat_round st = (Returns r, st') /\
    model (self st') = model (self st) /\
    trace st' = trace st
                ++ EvChat (model (self st)) (history (self st)) tools :: calls /\
    Forall (known_event (model (self st))) calls.
Proof.
  rewrite chat_round_run.
  destruct (client_chat _ _ _ _) as [[m | e] w].
  - destruct (no_tool_calls m).
    + eexists _, _, []. repeat split. constructor.
    + destruct (process_tool_calls_run (requested m) (appended (asked st w) m))
        as (_ & vs & Hd).
      destruct (dispatched_self _ _ _ _ Hd) as (_ & Hm & _).
      pose proof (dispatched_trace _ _ _ _ Hd) as Htr.
      eexists _, _, (flat_map call_events (requested m)). repeat split.
      * exact Hm.
      * rewrite Htr. cbn. now rewrite <- app_assoc.
      * apply call_events_known.
  - eexists _, _, []. repeat split. constructor.
Qed.

Lemma chat_loop_known (n : nat) :
  forall st, exists evs,
    trace (snd (chat_loop n st)) = trace st ++ evs /\
    Forall (known_event (model (self st))) evs.
Proof.
  induction n as [| n IH]; intros st.
  - exists []. cbn. split; [now rewrite app_nil_r | constructor].
  - destruct (chat_round_known st)
      as (r & st1 & calls & Hround & Hm & Htr & Hknown).
    cbn [chat_loop]. unfold bind at 1. rewrite Hround.
    assert (Hhead : known_event (model (self st))
                      (EvChat (model (self st)) (history (self st)) tools))
      by now split.
    destruct r as [answer |].
    + eexists. split; [exact Htr |]. now constructor.
    + destruct (IH st1) as (evs & Hevs & Hk). rewrite Hm in Hk.
      exists (EvChat (model (self st)) (history (self st)) tools
              :: calls ++ evs).
      split.
      * rewrite Hevs, Htr. now rewrite <- app_assoc.
      * constructor; [exact Hhead |]. apply Forall_app. now split.
Qed.

(** X3. What [chat] does to the outside is only this: requests to the model
    under the model identifier of the agent and with the schema list [tools],
    and calls of the six collaborators, the two list operations always
    without keyword arguments; and the first thing it does is a request to
    the model with the history followed by the user message. *)
Theorem chat_events_are_known (query : string) (st : state) :
  exists rest,
    trace (snd (chat query st))
      = trace st
        ++ EvChat (model (self st))
             (history (self st) ++ [plain_message "user" query]) tools
           :: rest /\
    Forall (known_event (model (self st))) rest.
Proof.
  rewrite chat_eq.
  destruct (chat_loop_known 5 (appended st (plain_message "user" query)))
    as (evs & Hevs & Hknown).
  destruct (chat_loop_spec 5 (appended st (plain_message "user" query)))
    as (a & st' & new & evs' & Hloop & _ & _ & _ & Htr & _ & _ & Hfirst).
  destruct (Hfirst ltac:(lia)) as [rest Hrest].
  rewrite Hloop in Hevs. cbn [snd] in Hevs.
  rewrite Htr in Hevs. apply app_inv_head in Hevs. subst evs evs'.
  cbn [appended self model history trace] in *.
  exists rest. rewrite Hloop. cbn [snd]. split; [exact Htr |].
  now inversion Hknown.
Qed.

(** X4. Whatever the name, the argument mapping and the collaborators,
    [_execute_tool] returns a value and does not raise, leaves the agent
    (context, model identifier and history) as it was, and either calls no
    collaborator at all and leaves the world as it was (unknown name), or
    calls exactly one collaborator, the one of that name. *)
Theorem execute_tool_keeps_conversation
    (name : string) (args : kwargs) (st : state) :
  exists v st',
    _execute_tool name args st = (Returns v, st') /\
    self st' = self st /\
    ((~ In name operation_names /\
      world st' = world st /\ trace st' = trace st)
     \/
     (In name operation_names /\
      trace st' = trace st ++ [EvCall name (passed_arguments name args)])).
Proof.
  rewrite execute_tool_run.
  destruct (imported name) as [f |] eqn:Hf.
  - assert (Hin : In name operation_names) by (apply imported_some; eauto).
    cbn zeta. destruct (f _ _ _) as [[v | e] w];
      eexists; eexists; (split; [reflexivity |]); (split; [reflexivity |]);
      right; now split.
  - apply imported_none in Hf.
    eexists; eexists. split; [reflexivity |]. split; [reflexivity |].
    left. now repeat split.
Qed.

(** X5. A round whose requests all name unknown operations touches nothing
    outside the agent: no collaborator is called, the world stays as it was,
    and the history gains, request after request, the tool message with the
    unknown-tool payload for the name of the request. *)
Theorem unknown_requests_touch_nothing
    (tcs : list tool_call) (st : state) :
  Forall (fun tc => ~ In (function_name tc) operation_names) tcs ->
  process_tool_calls tcs st
    = (Returns tt,
       {| self := {| ctx := ctx (self st); model := model (self st);
                     history := history (self st)
                                ++ map unknown_tool_message tcs |};
          world := world st; trace := trace st |}).
Proof.
  intros Hall. revert st.
  induction Hall as [| tc rest Hname _ IH]; intros st.
  - cbn. rewrite app_nil_r. now destruct st as [[c m h] w tr].
  - cbn [process_tool_calls]. unfold bind at 1.
    rewrite execute_tool_run. apply imported_none in Hname. rewrite Hname.
    unfold bind at 1. cbn [history_append].
    rewrite IH. cbn. now rewrite <- app_assoc.
Qed.

End Further.

(** ** Escaped text *)

Lemma string_app_assoc (a b c : string) :
  ((a ++ b) ++ c = a ++ (b ++ c))%string.
Proof. induction a as [| x a IH]; cbn; [reflexivity | now rewrite IH]. Qed.

Lemma string_length_app (a b : string) :
  String.length (a ++ b)%string = String.length a + String.length b.
Proof. induction a as [| x a IH]; cbn; [reflexivity | now rewrite IH]. Qed.

Lemma escape_char_plain (c : ascii) :
  (plain_char c = true -> Json.escape_char c = String c EmptyString) /\
  (plain_char c = false -> 2 <= String.length (Json.escape_char c)).
Proof.
  destruct c as [[] [] [] [] [] [] [] []]; vm_compute;
    split; intros; first [reflexivity | discriminate | lia].
Qed.

Lemma escape_chars_length (s : string) :
  String.length s <= String.length (Json.escape_chars s) /\
  (plain s = false -> String.length s < String.length (Json.escape_chars s)).
Proof.
  induction s as [| c s [IH1 IH2]]; [split; [cbn; lia | discriminate] |].
  cbn [Json.escape_chars plain String.length]. rewrite string_length_app.
  destruct (escape_char_plain c) as [Hp Hn].
  destruct (plain_char c).
  - rewrite (Hp eq_refl). cbn. split; [lia |]. intros Hs. specialize (IH2 Hs). lia.
  - specialize (Hn eq_refl). split; [lia | intros _; lia].
Qed.

(** X6. The encoder leaves a text as it is exactly when the text is made of
    printable ASCII characters other than the double quote and the
    backslash; the serialized payload of such an error text is the object
    with the one key error whose string literal is that text, letter for
    letter, between two double quotes. *)
Theorem plain_text_is_kept :
  (forall s, Json.escape_chars s = s <-> plain s = true) /\
  (forall s, plain s = true ->
     Json.dumps (PDict [("error", PStr s)])
     = ("{" ++ Json.dquote ++ "error" ++ Json.dquote ++ ": "
        ++ Json.dquote ++ s ++ Json.dquote ++ "}")%string).
Proof.
  assert (Hkeep : forall s, plain s = true -> Json.escape_chars s = s).
  { induction s as [| c s IH]; [reflexivity |].
    cbn [plain Json.escape_chars]. intros [Hc Hs]%andb_prop.
    rewrite (proj1 (escape_char_plain c) Hc), (IH Hs). reflexivity. }
  split.
  - intros s. split; [| apply Hkeep].
    intros Heq. destruct (plain s) eqn:Hs; [reflexivity |].
    pose proof (proj2 (escape_chars_length s) Hs) as Hlt.
    rewrite Heq in Hlt. lia.
  - intros s Hs. cbn [Json.dumps map fst snd Json.join_comma].
    unfold Json.encode_str. rewrite (Hkeep s Hs).
    rewrite !string_app_assoc. reflexivity.
Qed.

(** * Properties of the smoke-test client *)

Section ClientProperties.
Import VerifyClient.
Context `{McpSession}.

Lemma database_create_block_run (st : client_state) :
  database_create_block st
  = (Returns tt,
     {| server := snd (call_tool "superset_database_create"
                         database_create_arguments (server st));
        stdout :=
          stdout st
          ++ [create_line
                (text_of (fst (call_tool "superset_database_create"
                                 database_create_arguments (server st))))];
        done := done st ++ [database_create_event] |}).
Proof.
  unfold database_create_block, try_except, bind, session_call_tool,
    first_text, print, text_of, create_line.
  destruct (call_tool _ _ _) as [[[| [t | ty] rest] | e] w]; reflexivity.
Qed.

Lemma direct_checks_block_run (st : client_state) :
  direct_checks_block st
  = match text_of (fst (call_tool "superset_database_list" [] (server st))) with
    | Raises e =>
        (Returns tt,
         {| server := snd (call_tool "superset_database_list" [] (server st));
            stdout := stdout st
                      ++ [("Error listing databases/schemas: "
                           ++ exc_str e)%string];
            done := done st ++ [database_list_event] |})
    | Returns text =>
        (Returns tt,
         {| server :=
              snd (call_tool "superset_database_schemas"
                     [("database_id", PInt 1)]
                     (snd (call_tool "superset_database_list" []
                             (server st))));
            stdout :=
              stdout st
              ++ [("Databases found: " ++ text)%string;
                  (nl ++ "--- Direct Schema List Check ---")%string;
                  schemas_line
                    (text_of
                       (fst (call_tool "superset_database_schemas"
                               [("database_id", PInt 1)]
                               (snd (call_tool "superset_database_list" []
                                       (server st))))))];
            done := done st ++ [database_list_event; database_schemas_event] |})
    end.
Proof.
  unfold direct_checks_block, try_except, bind, session_call_tool,
    first_text, print, text_of, schemas_line.
  destruct (call_tool "superset_database_list" _ _)
    as [[[| [t | ty] rest] | e] w]; cbn [fst snd server stdout done];
    try reflexivity.
  destruct (call_tool "superset_database_schemas" _ _)
    as [[[| [t2 | ty2] rest2] | e2] w2]; cbn [fst snd server stdout done];
    repeat rewrite <- app_assoc; reflexivity.
Qed.

Lemma analyze_block_run (st : client_state) :
  analyze_block st
  = (Returns tt,
     {| server := snd (call_tool "superset_ai_analyze"
                         [("query", PStr query)] (server st));
        stdout :=
          stdout st
          ++ analyze_lines (fst (call_tool "superset_ai_analyze"
                                   [("query", PStr query)] (server st)));
        done := done st ++ [analyze_event] |}).
Proof.
  unfold analyze_block, try_except, bind, session_call_tool,
    first_text, print, text_of, analyze_lines, answer_line.
  destruct (call_tool _ _ _) as [[[| [t | ty] rest] | e] w];
    cbn [fst snd server stdout done];
    repeat rewrite <- app_assoc; reflexivity.
Qed.

Lemma analyze_lines_last (r : outcome (list content_item)) :
  exists before, analyze_lines r = before ++ [answer_line (text_of r)].
Proof.
  destruct r as [content | e].
  - exists [(nl ++ "Result:")%string]. reflexivity.
  - exists []. reflexivity.
Qed.

(** What [run_client] does up to the login. *)
Lemma run_client_run (st : client_state) :
  run_client st
  = match initialize (server st) with
    | (Raises e, w) =>
        (Raises e,
         {| server := w; stdout := stdout st;
            done := done st ++ [Initialized] |})
    | (Returns _, w) =>
        match text_of (fst (call_tool "superset_auth_authenticate_user"
                              authenticate_arguments w)) with
        | Raises e =>
            (Raises e,
             {| server := snd (call_tool "superset_auth_authenticate_user"
                                 authenticate_arguments w);
                stdout := stdout st ++ ["Authenticating..."];
                done := done st ++ [Initialized; authenticate_event] |})
        | Returns text =>
            after_login text
              {| server := snd (call_tool "superset_auth_authenticate_user"
                                  authenticate_arguments w);
                 stdout := stdout st ++ ["Authenticating..."];
                 done := done st ++ [Initialized; authenticate_event] |}
        end
    end.
Proof.
  unfold run_client, after_login, database_create_block, direct_checks_block,
    analyze_block.
  unfold bind at 1. unfold session_initialize.
  destruct (initialize (server st)) as [[[] | e] w]; [| reflexivity].
  unfold bind at 1. unfold print at 1.
  unfold bind at 1. unfold session_call_tool at 1. cbn [server stdout done].
  unfold text_of.
  destruct (call_tool "superset_auth_authenticate_user" _ _)
    as [[[| [t | ty] rest] | e] w2]; cbn [fst snd];
    try (unfold bind at 1; unfold first_text at 1);
    repeat rewrite <- app_assoc; reflexivity.
Qed.

(** [run_client] after the login, in full: it returns, whatever the calls
    do. *)
Lemma after_login_run (text : string) (st : client_state) :
  after_login text st
  = match text_of
            (fst (call_tool "superset_database_list" []
                    (snd (call_tool "superset_database_create"
                            database_create_arguments (server st))))) with
    | Raises e =>
        (Returns tt,
         {| server :=
              snd (call_tool "superset_ai_analyze" [("query", PStr query)]
                     (snd (call_tool "superset_database_list" []
                             (snd (call_tool "superset_database_create"
                                     database_create_arguments (server st))))));
            stdout :=
              stdout st
              ++ [("Auth Result: " ++ text)%string; "Authenticated.";
                  "Connecting to Trino at 192.168.68.118...";
                  create_line
                    (text_of (fst (call_tool "superset_database_create"
                                     database_create_arguments (server st))));
                  (nl ++ "--- Direct Database List Check ---")%string;
                  ("Error listing databases/schemas: " ++ exc_str e)%string;
                  (nl ++ "Sending Query: " ++ query)%string]
              ++ analyze_lines
                   (fst (call_tool "superset_ai_analyze" [("query", PStr query)]
                           (snd (call_tool "superset_database_list" []
                                   (snd (call_tool "superset_database_create"
                                           database_create_arguments
                                           (server st)))))));
            done :=
              done st
              ++ [database_create_event; database_list_event; analyze_event] |})
    | Returns found =>
        (Returns tt,
         {| server :=
              snd (call_tool "superset_ai_analyze" [("query", PStr query)]
                     (snd (call_tool "superset_database_schemas"
                             [("database_id", PInt 1)]
                             (snd (call_tool "superset_database_list" []
                                     (snd (call_tool "superset_database_create"
                                             database_create_arguments
                                             (server st))))))));
            stdout :=
              stdout st
              ++ [("Auth Result: " ++ text)%string; "Authenticated.";
                  "Connecting to Trino at 192.168.68.118...";
                  create_line
                    (text_of (fst (call_tool "superset_database_create"
                                     database_create_arguments (server st))));
                  (nl ++ "--- Direct Database List Check ---")%string;
                  ("Databases found: " ++ found)%string;
                  (nl ++ "--- Direct Schema List Check ---")%string;
                  schemas_line
                    (text_of
                       (fst (call_tool "superset_database_schemas"
                               [("database_id", PInt 1)]
                               (snd (call_tool "superset_database_list" []
                                       (snd (call_tool "superset_database_create"
                                               database_create_arguments
                                               (server st))))))));
                  (nl ++ "Sending Query: " ++ query)%string]
              ++ analyze_lines
                   (fst (call_tool "superset_ai_analyze" [("query", PStr query)]
                           (snd (call_tool "superset_database_schemas"
                                   [("database_id", PInt 1)]
                                   (snd (call_tool "superset_database_list" []
                                           (snd (call_tool
                                                   "superset_database_create"
                                                   database_create_arguments
                                                   (server st)))))))));
            done :=
              done st
              ++ [database_create_event; database_list_event;
                  database_schemas_event; analyze_event] |})
    end.
Proof.
  unfold after_login.
  unfold bind at 1. unfold print at 1.
  unfold bind at 1. unfold print at 1.
  unfold bind at 1. unfold print at 1.
  unfold bind at 1. rewrite database_create_block_run.
  unfold bind at 1. unfold print at 1.
  unfold bind at 1. rewrite direct_checks_block_run.
  cbn [server stdout done].
  destruct (text_of (fst (call_tool "superset_database_list" [] _)))
    as [found | e];
    unfold bind at 1; unfold print at 1;
    rewrite analyze_block_run; cbn [server stdout done];
    repeat rewrite <- app_assoc; reflexivity.
Qed.

(** X8. Whatever the server does, what [run_client] does to the session is
    one of four sequences: the initialization alone; the initialization and
    the login; or these two followed by the creation of the database, the
    database list and the query to the agent, with the schema list between
    the last two or not.  It calls no other tool, and none twice. *)
Theorem run_client_call_shapes (st : client_state) :
  exists new,
    done (snd (run_client st)) = done st ++ new /\
    In new
      [ [Initialized];
        [Initialized; authenticate_event];
        [Initialized; authenticate_event; database_create_event;
         database_list_event; analyze_event];
        [Initialized; authenticate_event; database_create_event;
         database_list_event; database_schemas_event; analyze_event] ].
Proof.
  rewrite run_client_run.
  destruct (initialize (server st)) as [[[] | e] w].
  - destruct (text_of (fst (call_tool "superset_auth_authenticate_user" _ w)))
      as [text | e].
    + rewrite after_login_run. cbn [server stdout done].
      destruct (text_of (fst (call_tool "superset_database_list" [] _)))
        as [found | e]; cbn [snd done]; rewrite <- app_assoc;
        eexists; (split; [reflexivity | cbn; tauto]).
    + eexists. split; [reflexivity | cbn; tauto].
  - eexists. split; [reflexivity | cbn; tauto].
Qed.

(** X9. The body of [run_client] is cut short by an exception exactly when
    the initialization raises, or the login does (the call, or the reading
    of the text of its result).  When the initialization raises, nothing
    else was done to the session and nothing was printed; when the login
    does, only the login was called after the initialization and only the
    line [Authenticating...] was printed.  (Which exception then leaves the
    two [async with] blocks around the body is not stated.) *)
Theorem run_client_stops_only_at_login (st : client_state) :
  (raised (fst (run_client st)) <->
   raised (fst (initialize (server st))) \/
   raised (text_of (fst (call_tool "superset_auth_authenticate_user"
                           authenticate_arguments
                           (snd (initialize (server st)))))))
  /\
  (raised (fst (initialize (server st))) ->
   done (snd (run_client st)) = done st ++ [Initialized] /\
   stdout (snd (run_client st)) = stdout st)
  /\
  (~ raised (fst (initialize (server st))) ->
   raised (text_of (fst (call_tool "superset_auth_authenticate_user"
                           authenticate_arguments
                           (snd (initialize (server st)))))) ->
   done (snd (run_client st)) = done st ++ [Initialized; authenticate_event] /\
   stdout (snd (run_client st)) = stdout st ++ ["Authenticating..."]).
Proof.
  rewrite run_client_run.
  destruct (initialize (server st)) as [[[] | e0] w]; cbn [fst snd raised].
  - destruct (text_of (fst (call_tool "superset_auth_authenticate_user" _ w)))
      as [text | e0]; cbn [raised].
    + rewrite after_login_run.
      destruct (text_of (fst (call_tool "superset_database_list" [] _)));
        cbn [fst raised]; tauto.
    + cbn [fst snd done stdout raised]. tauto.
  - cbn [fst snd done stdout raised]. tauto.
Qed.

(** X10. Once the session is initialized and the login has returned a text,
    [run_client] runs to its end without raising, whatever the other calls
    do: it always calls the creation of the database, the database list and,
    last of all, the query to the agent; and the last line it prints is the
    text of the agent's result, or, when that call or the reading of its
    text raised, the line [Error: ] with the text of the exception. *)
Theorem run_client_tolerates_failures
    (st : client_state) (w1 : Server) (text : string) :
  initialize (server st) = (Returns tt, w1) ->
  text_of (fst (call_tool "superset_auth_authenticate_user"
                  authenticate_arguments w1)) = Returns text ->
  exists st' checks lines w,
    run_client st = (Returns tt, st') /\
    done st'
      = done st
        ++ [Initialized; authenticate_event; database_create_event;
            database_list_event]
        ++ checks ++ [analyze_event] /\
    (checks = [] \/ checks = [database_schemas_event]) /\
    stdout st'
      = stdout st
        ++ ["Authenticating..."; ("Auth Result: " ++ text)%string;
            "Authenticated."; "Connecting to Trino at 192.168.68.118..."]
        ++ lines
        ++ [answer_line
              (text_of (fst (call_tool "superset_ai_analyze"
                               [("query", PStr query)] w)))].
Proof.
  intros Hinit Hauth.
  rewrite run_client_run, Hinit, Hauth, after_login_run.
  cbn [server stdout done].
  set (w2 := snd (call_tool "superset_auth_authenticate_user"
                    authenticate_arguments w1)).
  set (w3 := snd (call_tool "superset_database_create"
                    database_create_arguments w2)).
  set (line3 := create_line
                  (text_of (fst (call_tool "superset_database_create"
                                   database_create_arguments w2)))).
  destruct (text_of (fst (call_tool "superset_database_list" [] w3)))
    as [found | e].
  - set (w5 := snd (call_tool "superset_database_schemas"
                      [("database_id", PInt 1)]
                      (snd (call_tool "superset_database_list" [] w3)))).
    destruct (analyze_lines_last
                (fst (call_tool "superset_ai_analyze"
                        [("query", PStr query)] w5))) as [before ->].
    eexists.
    exists [database_schemas_event],
      ([line3; (nl ++ "--- Direct Database List Check ---")%string;
        ("Databases found: " ++ found)%string;
        (nl ++ "--- Direct Schema List Check ---")%string;
        schemas_line
          (text_of (fst (call_tool "superset_database_schemas"
                           [("database_id", PInt 1)]
                           (snd (call_tool "superset_database_list" [] w3)))));
        (nl ++ "Sending Query: " ++ query)%string] ++ before), w5.
    split; [reflexivity |]. cbn [done stdout].
    split; [now rewrite <- app_assoc |]. split; [now right |].
    repeat rewrite <- app_assoc. reflexivity.
  - set (w5 := snd (call_tool "superset_database_list" [] w3)).
    destruct (analyze_lines_last
                (fst (call_tool "superset_ai_analyze"
                        [("query", PStr query)] w5))) as [before ->].
    eexists.
    exists [],
      ([line3; (nl ++ "--- Direct Database List Check ---")%string;
        ("Error listing databases/schemas: " ++ exc_str e)%string;
        (nl ++ "Sending Query: " ++ query)%string] ++ before), w5.
    split; [reflexivity |]. cbn [done stdout].
    split; [now rewrite <- app_assoc |]. split; [now left |].
    repeat rewrite <- app_assoc. reflexivity.
Qed.

(** X11. When, after a login that returned a text, the database list raises
    or its result has no text to read, the schema list is not called: the
    calls are the initialization, the login, the creation of the database,
    the database list and the query to the agent, and the line
    [Error listing databases/schemas: ] with the text of the exception is
    printed.  When the database list returns a text, the schema list is
    called next, for the database 1. *)
Theorem run_client_schema_check_depends_on_list
    (st : client_state) (w1 : Server) (text : string) :
  initialize (server st) = (Returns tt, w1) ->
  text_of (fst (call_tool "superset_auth_authenticate_user"
                  authenticate_arguments w1)) = Returns text ->
  match text_of
          (fst (call_tool "superset_database_list" []
                  (snd (call_tool "superset_database_create"
                          database_create_arguments
                          (snd (call_tool "superset_auth_authenticate_user"
                                  authenticate_arguments w1)))))) with
  | Raises e =>
      done (snd (run_client st))
        = done st
          ++ [Initialized; authenticate_event; database_create_event;
              database_list_event; analyze_event] /\
      In ("Error listing databases/schemas: " ++ exc_str e)%string
         (stdout (snd (run_client st)))
  | Returns found =>
      done (snd (run_client st))
        = done st
          ++ [Initialized; authenticate_event; database_create_event;
              database_list_event; database_schemas_event; analyze_event] /\
      In ("Databases found: " ++ found)%string (stdout (snd (run_client st)))
  end.
Proof.
  intros Hinit Hauth.
  rewrite run_client_run, Hinit, Hauth, after_login_run.
  cbn [server stdout done].
  destruct (text_of (fst (call_tool "superset_database_list" [] _)))
    as [found | e]; cbn [snd done stdout];
    (split; [now rewrite <- app_assoc |]);
    rewrite !in_app_iff; right; left; cbn [In]; tauto.
Qed.

End ClientProperties.

(** * The further properties on concrete collaborators and servers *)

Section ConcreteFurther.
Import Demo.

(** Two requests for operations that do not exist. *)
Lemma unknown_requests_touch_nothing_witness :
  Forall (fun tc => ~ In (function_name tc) operation_names)
    [call "superset_database_lsit" []; call "superset_table_list" []] /\
  process_tool_calls
      [call "superset_database_lsit" []; call "superset_table_list" []]
      (fresh typo_env tt 0)
    = (Returns tt,
       appended
         (appended (fresh typo_env tt 0)
            (unknown_tool_message (call "superset_database_lsit" [])))
         (unknown_tool_message (call "superset_table_list" []))).
Proof.
  assert (Hnames : Forall (fun tc => ~ In (function_name tc) operation_names)
                     [call "superset_database_lsit" [];
                      call "superset_table_list" []]).
  { repeat constructor; cbn; intuition discriminate. }
  split; [exact Hnames |].
  exact (@unknown_requests_touch_nothing typo_env _ (fresh typo_env tt 0) Hnames).
Defined.

(** An error text of plain characters. *)
Lemma plain_text_is_kept_witness :
  plain "Connection refused" = true /\
  Json.dumps (PDict [("error", PStr "Connection refused")])
  = ("{" ++ Json.dquote ++ "error" ++ Json.dquote ++ ": "
     ++ Json.dquote ++ "Connection refused" ++ Json.dquote ++ "}")%string.
Proof.
  split; [reflexivity |].
  exact (proj2 plain_text_is_kept "Connection refused" eq_refl).
Defined.

End ConcreteFurther.

Section ConcreteClient.
Import VerifyClient.

(** The server refuses the login. *)
Lemma run_client_stops_only_at_login_witness :
  raised (text_of (fst (@call_tool (table_session true locked)
                          "superset_auth_authenticate_user"
                          authenticate_arguments tt))) /\
  raised (fst (run_client (start (table_session true locked) tt))) /\
  done (snd (run_client (start (table_session true locked) tt)))
    = [Initialized; authenticate_event] /\
  stdout (snd (run_client (start (table_session true locked) tt)))
    = ["Authenticating..."].
Proof.
  destruct (@run_client_stops_only_at_login (table_session true locked)
              (start (table_session true locked) tt))
    as (Hiff & _ & Hlogin).
  split; [exact I |].
  split; [apply Hiff; right; exact I |].
  exact (Hlogin (fun H => H) I).
Defined.

(** The login works, the creation and the database list fail, the agent
    answers. *)
Lemma run_client_tolerates_failures_witness :
  text_of (fst (@call_tool (table_session true flaky)
                  "superset_auth_authenticate_user" authenticate_arguments tt))
    = Returns "ok" /\
  fst (run_client (start (table_session true flaky) tt)) = Returns tt.
Proof.
  split; [reflexivity |].
  destruct (@run_client_tolerates_failures (table_session true flaky)
              (start (table_session true flaky) tt) tt "ok" eq_refl eq_refl)
    as (st' & checks & lines & w & Hrun & _).
  rewrite Hrun. reflexivity.
Defined.

(** The database list has no text: the schema list is skipped. *)
Lemma run_client_schema_check_depends_on_list_witness :
  done (snd (run_client (start (table_session true flaky) tt)))
    = [Initialized; authenticate_event; database_create_event;
       database_list_event; analyze_event] /\
  In "Error listing databases/schemas: list index out of range"
     (stdout (snd (run_client (start (table_session true flaky) tt)))).
Proof.
  exact (@run_client_schema_check_depends_on_list (table_session true flaky)
           (start (table_session true flaky) tt) tt "ok" eq_refl eq_refl).
Defined.

End ConcreteClient.

(** * The serialization of a tool result that cannot be serialized *)

Section WideProperties.
Context `{Wide.Collaborators}.

Lemma wide_process_tool_calls_app (pre rest : list tool_call) :
  forall st : Wide.state,
    Wide.process_tool_calls (pre ++ rest) st
    = match Wide.process_tool_calls pre st with
      | (Returns _, st') => Wide.process_tool_calls rest st'
      | (Raises e, st') => (Raises e, st')
      end.
Proof.
  induction pre as [| tc pre IH]; intros st; [reflexivity |].
  cbn [app Wide.process_tool_calls]. unfold Wide.bind.
  destruct (Wide._execute_tool _ _ st) as [[v | e] st1]; [| reflexivity].
  destruct (Wide.json_dumps v st1) as [[content | e] st2]; [| reflexivity].
  cbn [Wide.history_append]. apply IH.
Qed.

Lemma wide_execute_tool_keeps_agent
    (name : string) (args : kwargs) (st st' : Wide.state) (r : outcome Wide.value) :
  Wide._execute_tool name args st = (r, st') ->
  Wide.self st' = Wide.self st.
Proof.
  unfold Wide._execute_tool, Wide.try_except, Wide.bind, Wide.attempt,
    Wide._execute_tool_try, Wide.await, Wide.ret.
  repeat match goal with
  | |- context [String.eqb name ?s] => destruct (String.eqb name s)
  end;
  repeat match goal with
  | |- context [let (_, _) := ?f ?c ?k ?w in _] =>
      destruct (f c k w) as [[? | ?] ?]
  end;
  cbn; intros [= _ <-]; reflexivity.
Qed.

(** C9. A tool result on which [json.dumps] raises (a dictionary with a key
    that is not text, a number, a boolean or [None]; a container that
    contains itself; an object whose [str()] raises) is not serialized and
    not appended: at any place among the requests of a round, once the
    requests before it went through, the exception of the encoder leaves the
    round and the whole loop at once.  The state is the one the dispatch of
    that request left: the history has no tool message for it, the requests
    after it are not dispatched, and no further request is made to the
    model. *)
Theorem unserializable_result_aborts_chat
    (n : nat) (st0 st_mid st_call : Wide.state) (m : message) (w1 : Wide.World)
    (pre post : list tool_call) (tc : tool_call)
    (v : Wide.value) (e : Exception) :
  Wide.client_chat (Wide.model (Wide.self st0)) (Wide.history (Wide.self st0))
    tools (Wide.world st0) = (Returns m, w1) ->
  msg_tool_calls m = Some (pre ++ tc :: post) ->
  Wide.process_tool_calls pre (Wide.appended (Wide.asked st0 w1) m)
    = (Returns tt, st_mid) ->
  Wide._execute_tool (function_name tc) (function_arguments tc) st_mid
    = (Returns v, st_call) ->
  Wide.dumps v = Raises e ->
  Wide.chat_loop (S n) st0 = (Raises e, st_call) /\
  Wide.self st_call = Wide.self st_mid.
Proof.
  intros Hm Hcalls Hpre Hexec Hdumps.
  split; [| exact (wide_execute_tool_keeps_agent _ _ _ _ _ Hexec)].
  assert (Hround : Wide.chat_round st0 = (Raises e, st_call)).
  { unfold Wide.chat_round, Wide.bind at 1, Wide.attempt,
      Wide.request_completion.
    rewrite Hm. unfold Wide.bind at 1. cbn [Wide.history_append].
    assert (Hnone : no_tool_calls m = false)
      by (unfold no_tool_calls; rewrite Hcalls; now destruct pre).
    assert (Hreq : requested m = pre ++ tc :: post)
      by (unfold requested; now rewrite Hcalls).
    rewrite Hnone, Hreq. unfold Wide.bind at 1.
    rewrite wide_process_tool_calls_app, Hpre.
    cbn [Wide.process_tool_calls]. unfold Wide.bind at 1. rewrite Hexec.
    unfold Wide.bind at 1, Wide.json_dumps. rewrite Hdumps. reflexivity. }
  cbn [Wide.chat_loop]. unfold Wide.bind at 1. now rewrite Hround.
Qed.

End WideProperties.

(** The query tool returns [{(1, 2): "x"}] as the second of three results:
    the call of [chat] ends on the [TypeError] of the encoder, with the tool
    message of the first request in the history and nothing after it. *)
Lemma unserializable_result_aborts_chat_witness :
  Wide.dumps (Wide.VDict [(Wide.KOther "tuple", Wide.VStr (Wide.of_string "x"))])
    = Raises {| exc_str :=
                  "keys must be str, int, float, bool or None, not tuple" |} /\
  fst (Wide.chat "run it" (Wide.fresh Wide.tuple_key_env tt 0))
    = Raises {| exc_str :=
                  "keys must be str, int, float, bool or None, not tuple" |} /\
  map msg_role
      (Wide.history
         (Wide.self (snd (Wide.chat "run it" (Wide.fresh Wide.tuple_key_env tt 0)))))
    = ["system"; "user"; "assistant"; "tool"] /\
  Wide.trace (snd (Wide.chat "run it" (Wide.fresh Wide.tuple_key_env tt 0)))
    = [EvChat "llama3"
         [plain_message "system" SYSTEM_PROMPT; plain_message "user" "run it"]
         tools;
       EvCall "superset_database_list" [];
       EvCall "superset_sqllab_execute_query"
         [("database_id", PInt 1); ("sql", PStr "SELECT 1")]].
Proof.
  split; [reflexivity |].
  pose proof
    (@unserializable_result_aborts_chat Wide.tuple_key_env 4
       (Wide.appended (Wide.fresh Wide.tuple_key_env tt 0)
          (plain_message "user" "run it"))
       _ _ _ 1
       [Demo.call "superset_database_list" []]
       [Demo.call "superset_dataset_list" []]
       (Demo.call "superset_sqllab_execute_query"
          [("database_id", PInt 1); ("sql", PStr "SELECT 1")])
       _ _ eq_refl eq_refl eq_refl eq_refl eq_refl) as [Hrun _].
  change (Wide.chat "run it" (Wide.fresh Wide.tuple_key_env tt 0))
    with (Wide.chat_loop 5
            (Wide.appended (Wide.fresh Wide.tuple_key_env tt 0)
               (plain_message "user" "run it"))).
  rewrite Hrun. repeat split.
Defined.

(** The model asks back at once: the call returns the third way, after no
    round. *)
Lemma chat_returns_in_one_of_three_ways_witness :
  fst (chat "show me sales" (Demo.fresh Demo.plain_env tt 0))
    = Returns "Which database do you mean?" /\
  exists k st_k,
    k <= 5 /\
    continued k
      (appended (Demo.fresh Demo.plain_env tt 0)
         (plain_message "user" "show me sales")) st_k.
Proof.
  split; [reflexivity |].
  destruct (@chat_returns_in_one_of_three_ways Demo.plain_env
              "show me sales" (Demo.fresh Demo.plain_env tt 0)
              (snd (chat "show me sales" (Demo.fresh Demo.plain_env tt 0)))
              "Which database do you mean?" eq_refl)
    as (k & st_k & Hk & Hrounds & _).
  exists k, st_k. split; assumption.
Defined.

(** ** Escaped text of any code points *)

Ltac Zify.zify_post_hook ::= Z.to_euclidean_division_equations.

Lemma below_forallb (P : N -> bool) (k : nat) :
  forallb P (map N.of_nat (seq 0 k)) = true ->
  forall n, (n < N.of_nat k)%N -> P n = true.
Proof.
  intros Hall n Hn. rewrite forallb_forall in Hall. apply Hall.
  apply in_map_iff. exists (N.to_nat n). split; [lia |].
  apply in_seq. lia.
Qed.

Lemma wide_hex_value_digit (d : N) :
  (d < 16)%N -> Wide.hex_value (Wide.hex_digit d) = Some d.
Proof.
  intros Hd.
  pose proof (below_forallb
    (fun k => match Wide.hex_value (Wide.hex_digit k) with
              | Some v => (v =? k)%N
              | None => false
              end) 16 eq_refl d Hd) as Hk.
  cbn beta in Hk.
  destruct (Wide.hex_value (Wide.hex_digit d)); [| discriminate].
  apply N.eqb_eq in Hk. now subst.
Qed.

Lemma surrogate_parts (m : N) :
  (m < 1048576)%N ->
  N.lor 55296 (N.land (N.shiftr m 10) 1023) = (55296 + m / 1024)%N /\
  N.lor 56320 (N.land m 1023) = (56320 + m mod 1024)%N.
Proof.
  intros Hm.
  assert (Hor : forall y, (y < 1024)%N ->
            N.lor 55296 y = (55296 + y)%N /\ N.lor 56320 y = (56320 + y)%N).
  { intros y Hy.
    pose proof (below_forallb
      (fun k => (N.lor 55296 k =? 55296 + k)%N
                && (N.lor 56320 k =? 56320 + k)%N) 1024 eq_refl y Hy) as Hk.
    cbn beta in Hk. apply andb_prop in Hk as [H1 H2].
    now apply N.eqb_eq in H1, H2. }
  change 1023%N with (N.ones 10). rewrite !N.land_ones, N.shiftr_div_pow2.
  change (2 ^ 10)%N with 1024%N.
  assert (H1 : (m / 1024 mod 1024 = m / 1024)%N) by lia.
  rewrite H1.
  split; apply Hor; lia.
Qed.

Lemma wide_hex4_value (u : N) (r : string) :
  (u < 65536)%N ->
  exists h3 h2 h1 h0,
    Wide.hex4 u = String h3 (String h2 (String h1 (String h0 EmptyString))) /\
    Wide.hex_value h3 = Some (u / 4096 mod 16)%N /\
    Wide.hex_value h2 = Some (u / 256 mod 16)%N /\
    Wide.hex_value h1 = Some (u / 16 mod 16)%N /\
    Wide.hex_value h0 = Some (u mod 16)%N.
Proof.
  intros Hu. unfold Wide.hex4.
  do 4 eexists. split; [reflexivity |].
  repeat split; apply wide_hex_value_digit; lia.
Qed.

Lemma hex_digits_sum (u : N) :
  (u < 65536)%N ->
  (4096 * (u / 4096 mod 16) + 256 * (u / 256 mod 16)
   + 16 * (u / 16 mod 16) + u mod 16 = u)%N.
Proof.
  intros Hu.
  replace (u / 4096)%N with (u / 16 / 16 / 16)%N
    by (rewrite !N.Div0.div_div; reflexivity).
  replace (u / 256)%N with (u / 16 / 16)%N
    by (rewrite !N.Div0.div_div; reflexivity).
  lia.
Qed.

Lemma unescape_unit_u_escape (u : N) (r : string) :
  (u < 65536)%N ->
  Wide.unescape_unit (Wide.u_escape u ++ r)%string = Some (u, r).
Proof.
  intros Hu.
  destruct (wide_hex4_value u r Hu) as (h3 & h2 & h1 & h0 & Hhex & H3 & H2 & H1 & H0).
  unfold Wide.u_escape. rewrite Hhex.
  cbn [append Json.backslash Wide.unescape_unit].
  change (N_of_ascii (ascii_of_nat 92) =? 92)%N with true. cbn iota.
  change (N_of_ascii "u" =? 117)%N with true. cbn iota zeta.
  rewrite H3, H2, H1, H0. now rewrite hex_digits_sum.
Qed.

Lemma unescape_unit_escape (u : N) (r : string) :
  (u < 65536)%N ->
  Wide.unescape_unit (Wide.escape_code_point u ++ r)%string = Some (u, r).
Proof.
  intros Hu. unfold Wide.escape_code_point.
  destruct (N.eqb_spec u 34); [subst; reflexivity |].
  destruct (N.eqb_spec u 92); [subst; reflexivity |].
  destruct (N.eqb_spec u 10); [subst; reflexivity |].
  destruct (N.eqb_spec u 13); [subst; reflexivity |].
  destruct (N.eqb_spec u 9); [subst; reflexivity |].
  destruct (N.eqb_spec u 8); [subst; reflexivity |].
  destruct (N.eqb_spec u 12); [subst; reflexivity |].
  destruct ((32 <=? u) && (u <=? 126))%N eqn:Hprint.
  - apply andb_prop in Hprint as [Hlo Hhi].
    apply N.leb_le in Hlo, Hhi.
    cbn [append Wide.unescape_unit].
    rewrite (N_ascii_embedding u) by lia.
    destruct (N.eqb_spec u 92); [contradiction | reflexivity].
  - assert (Hlt : (u <? 65536)%N = true) by now apply N.ltb_lt.
    rewrite Hlt. now apply unescape_unit_u_escape.
Qed.

Lemma escape_text_app (a b : Wide.text) :
  Wide.escape_text (a ++ b) = (Wide.escape_text a ++ Wide.escape_text b)%string.
Proof.
  induction a as [| n a IH]; [reflexivity |].
  cbn [app Wide.escape_text]. now rewrite IH, string_app_assoc.
Qed.

Lemma string_app_empty (a : string) : (a ++ EmptyString)%string = a.
Proof. induction a as [| c a IH]; cbn; [reflexivity | now rewrite IH]. Qed.

Lemma escape_code_point_surrogate (u : N) :
  (55296 <= u < 65536)%N -> Wide.escape_code_point u = Wide.u_escape u.
Proof.
  intros Hu. unfold Wide.escape_code_point.
  repeat match goal with
  | |- context [(u =? ?k)%N] => destruct (N.eqb_spec u k); [lia |]
  end.
  destruct (N.leb_spec u 126); [lia |]. rewrite andb_false_r.
  destruct (N.ltb_spec u 65536); [reflexivity | lia].
Qed.

(** The escapes of a code point are the escapes of its units. *)
Lemma escape_code_point_units (n : N) :
  (n < 1114112)%N ->
  Wide.escape_code_point n = Wide.escape_text (Wide.code_units n).
Proof.
  intros Hn. unfold Wide.code_units.
  destruct (N.ltb_spec n 65536) as [Hlt | Hge].
  - cbn [Wide.escape_text]. now rewrite string_app_empty.
  - cbn zeta. cbn [Wide.escape_text]. rewrite string_app_empty.
    destruct (surrogate_parts (n - 65536) ltac:(lia)) as [Hh Hl].
    rewrite (escape_code_point_surrogate
               (N.lor 55296 (N.land (N.shiftr (n - 65536) 10) 1023)))
      by (rewrite Hh; lia).
    rewrite (escape_code_point_surrogate
               (N.lor 56320 (N.land (n - 65536) 1023)))
      by (rewrite Hl; lia).
    unfold Wide.escape_code_point.
    repeat match goal with
    | |- context [(n =? ?k)%N] => destruct (N.eqb_spec n k); [lia |]
    end.
    destruct (N.leb_spec n 126); [lia |]. rewrite andb_false_r.
    destruct (N.ltb_spec n 65536); [lia | reflexivity].
Qed.

Lemma escape_text_units (t : Wide.text) :
  Forall (fun n => (n < 1114112)%N) t ->
  Wide.escape_text t = Wide.escape_text (flat_map Wide.code_units t).
Proof.
  induction 1 as [| n t Hn _ IH]; [reflexivity |].
  cbn [flat_map Wide.escape_text].
  now rewrite escape_text_app, <- escape_code_point_units, IH.
Qed.

Lemma code_units_unit16 (n : N) :
  (n < 1114112)%N -> Forall Wide.unit16 (Wide.code_units n).
Proof.
  intros Hn. unfold Wide.code_units, Wide.unit16.
  destruct (N.ltb_spec n 65536) as [Hlt | Hge]; [now repeat constructor |].
  cbn zeta. destruct (surrogate_parts (n - 65536) ltac:(lia)) as [-> ->].
  repeat constructor; lia.
Qed.

(** Escaped units up to a closing quote can be read back. *)
Lemma escape_units_injective (us1 : list N) :
  forall us2 t1 t2,
    Forall Wide.unit16 us1 -> Forall Wide.unit16 us2 ->
    (Wide.escape_text us1 ++ Json.dquote ++ t1
     = Wide.escape_text us2 ++ Json.dquote ++ t2)%string ->
    us1 = us2 /\ t1 = t2.
Proof.
  assert (Hquote : forall u r t, Wide.unit16 u ->
             (Json.dquote ++ t)%string
             <> (Wide.escape_code_point u ++ r)%string).
  { intros u r t Hu Heq.
    pose proof (f_equal Wide.unescape_unit Heq) as Hhead.
    rewrite unescape_unit_escape in Hhead by exact Hu. cbn in Hhead.
    injection Hhead as <- _. discriminate Heq. }
  induction us1 as [| u1 us1 IH]; intros [| u2 us2] t1 t2 H1 H2 Heq;
    cbn [Wide.escape_text] in Heq; rewrite ?string_app_assoc in Heq.
  - cbn in Heq. injection Heq as ->. now split.
  - cbn [append] in Heq. inversion H2 as [| ? ? Hu2 Hus2]; subst.
    now apply Hquote in Heq.
  - cbn [append] in Heq. symmetry in Heq.
    inversion H1 as [| ? ? Hu1 Hus1]; subst.
    now apply Hquote in Heq.
  - inversion H1 as [| ? ? Hu1 Hus1]; subst.
    inversion H2 as [| ? ? Hu2 Hus2]; subst.
    pose proof (f_equal Wide.unescape_unit Heq) as Hhead.
    rewrite (unescape_unit_escape u1 _ Hu1) in Hhead.
    rewrite (unescape_unit_escape u2 _ Hu2) in Hhead.
    injection Hhead as -> Htail.
    destruct (IH _ _ _ Hus1 Hus2 Htail) as [-> ->].
    now split.
Qed.

Lemma cons_eq {A : Type} (x y : A) (l l' : list A) :
  x :: l = y :: l' -> x = y /\ l = l'.
Proof. intros [= -> ->]. now split. Qed.

(** The units of a text of scalar values determine the text. *)
Lemma code_units_injective (t1 : Wide.text) :
  forall t2,
    Forall (fun n => Wide.scalar n = true) t1 ->
    Forall (fun n => Wide.scalar n = true) t2 ->
    flat_map Wide.code_units t1 = flat_map Wide.code_units t2 ->
    t1 = t2.
Proof.
  assert (Hscalar : forall n, Wide.scalar n = true ->
            (n < 1114112)%N /\ ((n < 55296)%N \/ (57343 < n)%N)).
  { intros n Hn. unfold Wide.scalar, Wide.surrogate in Hn.
    apply andb_prop in Hn as [Hlt Hns]. apply N.ltb_lt in Hlt.
    split; [exact Hlt |].
    destruct (N.leb_spec 55296 n); destruct (N.leb_spec n 57343);
      cbn in Hns; try discriminate; lia. }
  assert (Hunits : forall n, Wide.scalar n = true ->
            (n < 65536 /\ Wide.code_units n = [n])%N \/
            (65536 <= n /\
             Wide.code_units n
             = [55296 + (n - 65536) / 1024; 56320 + (n - 65536) mod 1024])%N).
  { intros n Hn. destruct (Hscalar n Hn) as [Hlt _]. unfold Wide.code_units.
    destruct (N.ltb_spec n 65536); [left; now split | right].
    split; [assumption |]. cbn zeta.
    now destruct (surrogate_parts (n - 65536) ltac:(lia)) as [-> ->]. }
  induction t1 as [| n1 t1 IH]; intros [| n2 t2] H1 H2 Heq.
  - reflexivity.
  - inversion H2; subst. cbn [flat_map] in Heq.
    destruct (Hunits n2 ltac:(assumption)) as [[_ E] | [_ E]];
      rewrite E in Heq; discriminate.
  - inversion H1; subst. cbn [flat_map] in Heq.
    destruct (Hunits n1 ltac:(assumption)) as [[_ E] | [_ E]];
      rewrite E in Heq; discriminate.
  - inversion H1 as [| ? ? Hn1 Ht1]; subst.
    inversion H2 as [| ? ? Hn2 Ht2]; subst.
    cbn [flat_map] in Heq.
    destruct (Hscalar n1 Hn1) as [Hb1 Hs1].
    destruct (Hscalar n2 Hn2) as [Hb2 Hs2].
    destruct (Hunits n1 Hn1) as [[Hl1 E1] | [Hl1 E1]];
      destruct (Hunits n2 Hn2) as [[Hl2 E2] | [Hl2 E2]];
      rewrite E1, E2 in Heq; cbn [app] in Heq.
    + apply cons_eq in Heq as [-> Heq]. f_equal. now apply IH.
    + apply cons_eq in Heq as [Hh Heq]. lia.
    + apply cons_eq in Heq as [Hh Heq]. lia.
    + apply cons_eq in Heq as [Hh Heq]. apply cons_eq in Heq as [Hl Heq].
      assert (n1 = n2) by lia. subst. f_equal. now apply IH.
Qed.

Lemma scalar_text_units (t : Wide.text) :
  Forall (fun n => Wide.scalar n = true) t ->
  Forall (fun n => (n < 1114112)%N) t /\
  Forall Wide.unit16 (flat_map Wide.code_units t).
Proof.
  induction 1 as [| n t Hn _ [IH1 IH2]]; [split; constructor |].
  assert (Hlt : (n < 1114112)%N).
  { unfold Wide.scalar in Hn. apply andb_prop in Hn as [Hlt _].
    now apply N.ltb_lt. }
  split; [now constructor |].
  cbn [flat_map]. apply Forall_app. split; [now apply code_units_unit16 | exact IH2].
Qed.

Lemma scalar_escape_text_injective (t1 t2 : Wide.text) (r1 r2 : string) :
  Forall (fun n => Wide.scalar n = true) t1 ->
  Forall (fun n => Wide.scalar n = true) t2 ->
  (Wide.escape_text t1 ++ Json.dquote ++ r1
   = Wide.escape_text t2 ++ Json.dquote ++ r2)%string ->
  t1 = t2.
Proof.
  intros H1 H2 Heq.
  destruct (scalar_text_units t1 H1) as [Hb1 Hu1].
  destruct (scalar_text_units t2 H2) as [Hb2 Hu2].
  rewrite (escape_text_units t1 Hb1), (escape_text_units t2 Hb2) in Heq.
  destruct (escape_units_injective _ _ _ _ Hu1 Hu2 Heq) as [Hunits _].
  now apply code_units_injective.
Qed.

(** X7. For texts of Unicode scalar values (no surrogate code points) the
    encoder loses nothing: two such texts with the same JSON string literal
    are the same text, so two error payloads with the same serialized form
    carry the same error text.  Surrogate code points have to be left out:
    the code point 128512 and the two surrogates 55357, 56832 are written
    alike. *)
Theorem scalar_text_is_recoverable (t1 t2 : Wide.text) :
  Forall (fun n => Wide.scalar n = true) t1 ->
  Forall (fun n => Wide.scalar n = true) t2 ->
  (Wide.encode_text t1 = Wide.encode_text t2 -> t1 = t2) /\
  (Wide.dumps (Wide.VDict [(Wide.KStr (Wide.of_string "error"), Wide.VStr t1)])
   = Wide.dumps (Wide.VDict [(Wide.KStr (Wide.of_string "error"), Wide.VStr t2)])
   -> t1 = t2) /\
  Wide.encode_text [128512%N] = Wide.encode_text [55357%N; 56832%N].
Proof.
  intros H1 H2. split; [| split; [| reflexivity]].
  - unfold Wide.encode_text. intros Heq.
    cbn [Json.dquote append] in Heq. injection Heq as Heq.
    exact (scalar_escape_text_injective t1 t2 EmptyString EmptyString H1 H2 Heq).
  - intros Heq. cbn in Heq. injection Heq as Heq.
    rewrite !string_app_assoc in Heq.
    exact (scalar_escape_text_injective t1 t2 "}" "}" H1 H2 Heq).
Qed.

Lemma scalar_text_is_recoverable_witness :
  Forall (fun n => Wide.scalar n = true) [128512%N; 233%N; 97%N] /\
  (Wide.encode_text [128512%N; 233%N; 97%N]
   = Wide.encode_text [128512%N; 233%N; 97%N] ->
   [128512%N; 233%N; 97%N] = [128512%N; 233%N; 97%N]).
Proof.
  assert (Hs : Forall (fun n => Wide.scalar n = true) [128512%N; 233%N; 97%N])
    by (repeat constructor).
  split; [exact Hs |].
  exact (proj1 (scalar_text_is_recoverable _ _ Hs Hs)).
Defined.
